(** * Fear & Greed Index: the normalisation core and its derived metrics

    A shallow embedding of the Python sources

      - [fear_greed_index/scrape_cnn.py]            (the fetcher),
      - [fear_greed_index/FearAndGreedIndicator.py] (one indicator),
      - [fear_greed_index/CNNFearAndGreedIndex.py]  (the snapshot),
      - [api_server.py], [fgi_cli.py], [app.py], [fgi_mcp_server.py]
        (the derived metrics the front ends compute),

    followed by the properties of the specification, each stated on these
    definitions.

    Python values are the values [json.loads] produces.  Exceptions are
    results of an error monad.  The part of the Python runtime that the
    sources only call ([datetime.fromisoformat], [datetime.fromtimestamp])
    is a parameter of the development (class [Runtime]); the HTTP exchange
    of [requests.get] is an explicit environment ([network]). *)

From Stdlib Require Import String Ascii List ZArith QArith Lqa Lia Bool Permutation.
From Stdlib Require DecimalString.
Import ListNotations.

Set Warnings "-register-all".
Open Scope string_scope.

(** ** Exceptions and the error monad *)

(** The exceptions that the modelled code paths can raise. *)
Inductive exn : Type :=
| AttributeError            (* [x.get], [x.replace] on a value without it *)
| TypeError                 (* [<], [/], unary [-], slicing on a wrong type *)
| ValueError                (* [datetime.fromisoformat] on a bad string *)
| KeyError                  (* [d[key]] on a dict without [key] *)
| OverflowError             (* [datetime.fromtimestamp] out of range *)
| OSError
| HTTPError (status_code : Z)   (* [requests.exceptions.HTTPError] *)
| ConnectionError               (* [requests.exceptions.ConnectionError] *)
| Timeout                       (* [requests.exceptions.Timeout] *)
| JSONDecodeError.              (* [response.json()] on a body that is not JSON *)

Inductive result (A : Type) : Type :=
| OK (a : A)
| Raise (e : exn).
Arguments OK {A} a.
Arguments Raise {A} e.

Definition bind {A B : Type} (r : result A) (k : A -> result B) : result B :=
  match r with
  | OK a => k a
  | Raise e => Raise e
  end.

Notation "x <- e ;; k" := (bind e (fun x => k))
  (at level 61, e at next level, right associativity).

Definition succeeds {A : Type} (r : result A) : bool :=
  match r with OK _ => true | Raise _ => false end.

(** [[f(x) for x in xs]] where [f] may raise: left to right, first
    exception wins. *)
Fixpoint mapM {A B : Type} (f : A -> result B) (xs : list A) : result (list B) :=
  match xs with
  | [] => OK []
  | x :: rest => y <- f x ;; ys <- mapM f rest ;; OK (y :: ys)
  end.

(** ** Python values

    What [json.loads] returns: [None], booleans, integers, floats,
    strings, lists and dicts with string keys.  A float is represented by
    the rational it denotes (every finite float is one; the non-finite
    [NaN]/[Infinity] are not represented).  A dict is the list of its
    items in insertion order; its keys are pairwise distinct. *)
Inductive pyval : Type :=
| PNone
| PBool (b : bool)
| PInt (z : Z)
| PFloat (q : Q)
| PStr (s : string)
| PList (items : list pyval)
| PDict (items : list (string * pyval)).

(** Truth value of an object, as tested by [if x:]. *)
Definition truthy (v : pyval) : bool :=
  match v with
  | PNone => false
  | PBool b => b
  | PInt z => negb (z =? 0)%Z
  | PFloat q => negb (Qeq_bool q 0)
  | PStr s => negb (s =? EmptyString)
  | PList items => match items with [] => false | _ => true end
  | PDict items => match items with [] => false | _ => true end
  end.

(** [d.get(key, default)] on the items of a dict. *)
Fixpoint dict_get (items : list (string * pyval)) (key : string) (default : pyval)
  : pyval :=
  match items with
  | [] => default
  | (k, v) :: rest => if k =? key then v else dict_get rest key default
  end.

(** The value stored under [key], if any. *)
Fixpoint dict_find (items : list (string * pyval)) (key : string) : option pyval :=
  match items with
  | [] => None
  | (k, v) :: rest => if k =? key then Some v else dict_find rest key
  end.

(** Looking up the attribute [get]: only a dict has it. *)
Definition attr_get (v : pyval) : result (string -> pyval -> pyval) :=
  match v with
  | PDict items => OK (dict_get items)
  | _ => Raise AttributeError
  end.

(** Numbers.  [bool] is a subclass of [int]. *)
Definition num_value (v : pyval) : option Q :=
  match v with
  | PBool b => Some (if b then 1 else 0)
  | PInt z => Some (inject_Z z)
  | PFloat q => Some q
  | _ => None
  end.

Definition Qltb (x y : Q) : bool := negb (Qle_bool y x).

(** [v < n] for an integer literal [n]. *)
Definition py_lt (v : pyval) (n : Z) : result bool :=
  match num_value v with
  | Some q => OK (Qltb q (inject_Z n))
  | None => Raise TypeError
  end.

(** [v / n] for an integer literal [n <> 0]; the quotient is kept exact. *)
Definition py_truediv (v : pyval) (n : Z) : result Q :=
  match num_value v with
  | Some q => OK (q / inject_Z n)
  | None => Raise TypeError
  end.

(** [v[key]] for a string literal [key]: only a dict is indexed by a
    string. *)
Definition py_getitem (v : pyval) (key : string) : result pyval :=
  match v with
  | PDict items =>
      match dict_find items key with
      | Some x => OK x
      | None => Raise KeyError
      end
  | _ => Raise TypeError
  end.

(** The number that the format specification [:.1f] prints. *)
Definition py_format_f (v : pyval) : result Q :=
  match v with
  | PStr _ => Raise ValueError
  | _ => match num_value v with
         | Some q => OK q
         | None => Raise TypeError
         end
  end.

(** Unary minus. *)
Definition py_neg (v : pyval) : result pyval :=
  match v with
  | PBool b => OK (PInt (- (if b then 1 else 0)))
  | PInt z => OK (PInt (- z))
  | PFloat q => OK (PFloat (- q))
  | _ => Raise TypeError
  end.

(** [operator.index]: the integers usable as a slice bound. *)
Definition py_index (v : pyval) : result Z :=
  match v with
  | PBool b => OK (if b then 1 else 0)%Z
  | PInt z => OK z
  | _ => Raise TypeError
  end.

(** The first index of the slice [s[start:]] of a sequence of length
    [len]: a negative [start] counts from the end, and both ends clamp. *)
Definition slice_start (len : nat) (start : Z) : nat :=
  if (start <? 0)%Z
  then Z.to_nat (Z.max 0 (Z.of_nat len + start))
  else Nat.min (Z.to_nat start) len.

Fixpoint string_skipn (n : nat) (s : string) : string :=
  match n, s with
  | O, _ => s
  | S k, EmptyString => EmptyString
  | S k, String _ rest => string_skipn k rest
  end.

(** [seq[start:]].  Lists and strings are sliced; a slice bound must be
    an integer; the other values cannot be sliced. *)
Definition py_slice_from (seq start : pyval) : result pyval :=
  match seq with
  | PList items =>
      i <- py_index start ;;
      OK (PList (skipn (slice_start (List.length items) i) items))
  | PStr s =>
      i <- py_index start ;;
      OK (PStr (string_skipn (slice_start (String.length s) i) s))
  | _ => Raise TypeError
  end.

Definition chars (s : string) : list pyval :=
  map (fun c => PStr (String c EmptyString)) (list_ascii_of_string s).

(** [for d in seq] and [for d in reversed(seq)] for the two sequence
    types a slice can produce. *)
Definition py_iter (seq : pyval) : result (list pyval) :=
  match seq with
  | PList items => OK items
  | PStr s => OK (chars s)
  | _ => Raise TypeError
  end.

Definition py_reversed (seq : pyval) : result (list pyval) :=
  match seq with
  | PList items => OK (rev items)
  | PStr s => OK (rev (chars s))
  | _ => Raise TypeError
  end.

(** ** Strings

    A string is a sequence of ASCII characters. *)

Definition lower_char (c : ascii) : ascii :=
  let n := nat_of_ascii c in
  if ((65 <=? n) && (n <=? 90))%nat then ascii_of_nat (n + 32) else c.

(** [s.lower()] *)
Fixpoint py_lower (s : string) : string :=
  match s with
  | EmptyString => EmptyString
  | String c rest => String (lower_char c) (py_lower rest)
  end.

(** [s.startswith(pre)] *)
Fixpoint startswith (s pre : string) {struct pre} : bool :=
  match pre, s with
  | EmptyString, _ => true
  | String _ _, EmptyString => false
  | String a pre', String b s' => (a =? b)%char && startswith s' pre'
  end.

(** [s.replace(old, new)] for a non-empty [old] (as at every call site):
    occurrences are replaced from the left and do not overlap.  [skip]
    counts the characters of a matched occurrence still to be dropped. *)
Fixpoint replace_from (old new : string) (skip : nat) (s : string) : string :=
  match s with
  | EmptyString => EmptyString
  | String c rest =>
      match skip with
      | S k => replace_from old new k rest
      | O =>
          if startswith s old
          then new ++ replace_from old new (String.length old - 1) rest
          else String c (replace_from old new 0 rest)
      end
  end.

Definition py_replace (s old new : string) : string := replace_from old new 0 s.

(** [needle in hay] for strings. *)
Fixpoint py_in (needle hay : string) : bool :=
  startswith hay needle ||
  match hay with
  | EmptyString => false
  | String _ rest => py_in needle rest
  end.

(** ** The runtime the sources call into *)

(** [datetime.fromisoformat] and [datetime.fromtimestamp] belong to the
    Python runtime, not to the repository: they are parameters.  Both may
    raise.  [fromtimestamp] receives the exact quotient that the source
    computes as a float; the rounding of that division, and its failure
    on an integer beyond the range of floats, are part of the parameter. *)
Class Runtime : Type := {
  datetime : Type;
  fromisoformat : string -> result datetime;
  fromtimestamp : Q -> result datetime
}.

(** The HTTP exchange behind [requests.get].  The environment decides
    the fate of the [n]-th call; [sent] records the calls made so far. *)
Record request : Type := {
  req_url : string;
  req_headers : list (string * string);
  req_timeout : Z
}.

Inductive reply : Type :=
| ConnectionFailed
| TimedOut
| Responded (status : Z) (json_body : option pyval).
    (* [json_body] is [None] when the body is not a JSON text *)

Record network : Type := {
  server : nat -> request -> reply;
  sent : list request
}.

Record response : Type := {
  status_code : Z;
  body : option pyval
}.

(** [requests.get(url, headers=..., timeout=...)] *)
Definition requests_get (url : string) (headers : list (string * string))
  (timeout : Z) (net : network) : result response * network :=
  let req := {| req_url := url; req_headers := headers; req_timeout := timeout |} in
  let net' := {| server := server net; sent := (sent net ++ [req])%list |} in
  match server net (List.length (sent net)) req with
  | ConnectionFailed => (Raise ConnectionError, net')
  | TimedOut => (Raise Timeout, net')
  | Responded st b => (OK {| status_code := st; body := b |}, net')
  end.

(** [response.raise_for_status()]: client and server error codes raise. *)
Definition raise_for_status (r : response) : result unit :=
  if ((400 <=? status_code r) && (status_code r <? 600))%Z
  then Raise (HTTPError (status_code r))
  else OK tt.

(** [response.json()] *)
Definition response_json (r : response) : result pyval :=
  match body r with
  | Some v => OK v
  | None => Raise JSONDecodeError
  end.

(** ** [scrape_cnn.py] *)
Module scrape_cnn.

Definition API_URL : string :=
  "https://production.dataviz.cnn.io/index/fearandgreed/graphdata".

Definition _HEADERS : list (string * string) :=
  [ ("User-Agent",
     "Mozilla/5.0 (Windows NT 10.0; Win64; x64) AppleWebKit/537.36 (KHTML, like Gecko) Chrome/120.0.0.0 Safari/537.36");
    ("Accept", "application/json") ].

Definition _get_fear_greed_data (net : network) : result pyval * network :=
  let (r, net') := requests_get API_URL _HEADERS 30 net in
  (response <- r ;;
   _ <- raise_for_status response ;;
   response_json response,
   net').

End scrape_cnn.

(** ** [FearAndGreedIndicator.py] *)
Module FearAndGreedIndicator.
Section WithRuntime.
Context {RT : Runtime}.

Record t : Type := mk {
  name : string;
  score : pyval;
  rating : pyval;
  timestamp : option datetime;
  historical_data : pyval
}.

(** The attribute values [__init__] assigns before looking at [data]. *)
Definition blank (name : string) : t :=
  {| name := name;
     score := PFloat 0;
     rating := PStr "N/A";
     timestamp := None;
     historical_data := PList [] |}.

Definition _load_from_data (self : t) (data : pyval) : result t :=
  get <- attr_get data ;;
  let timestamp_ms := get "timestamp" PNone in
  ts <- (if truthy timestamp_ms
         then seconds <- py_truediv timestamp_ms 1000 ;;
              d <- fromtimestamp seconds ;;
              OK (Some d)
         else OK (timestamp self)) ;;
  OK {| name := name self;
        score := get "score" (PFloat 0);
        rating := get "rating" (PStr "N/A");
        timestamp := ts;
        historical_data := get "data" (PList []) |}.

(** [FearAndGreedIndicator(name, data)] *)
Definition __init__ (name : string) (data : pyval) : result t :=
  let self := blank name in
  if truthy data then _load_from_data self data else OK self.

Definition get_historical_data (self : t) : pyval := historical_data self.

End WithRuntime.
Arguments t {RT}.
End FearAndGreedIndicator.

(** ** [CNNFearAndGreedIndex.py] *)
Module CNNFearAndGreedIndex.
Section WithRuntime.
Context {RT : Runtime}.

Definition _INDICATOR_MAP : list (string * string) :=
  [ ("junk_bond_demand", "Junk Bond Demand");
    ("market_volatility_vix", "Market Volatility (VIX)");
    ("put_call_options", "Put and Call Options");
    ("market_momentum_sp500", "Market Momentum (S&P 500)");
    ("stock_price_strength", "Stock Price Strength");
    ("stock_price_breadth", "Stock Price Breadth");
    ("safe_haven_demand", "Safe Haven Demand") ].

(** [_INDICATOR_MAP[key]] for the literal keys of the source. *)
Fixpoint indicator_name_in (m : list (string * string)) (key : string) : string :=
  match m with
  | [] => EmptyString
  | (k, v) :: rest => if k =? key then v else indicator_name_in rest key
  end.

Definition indicator_name (key : string) : string :=
  indicator_name_in _INDICATOR_MAP key.

Record t : Type := mk {
  score : pyval;
  rating : pyval;
  previous_close : pyval;
  previous_1_week : pyval;
  previous_1_month : pyval;
  previous_1_year : pyval;
  timestamp : option datetime;
  historical_data : pyval;
  junk_bond_demand : FearAndGreedIndicator.t;
  market_volatility : FearAndGreedIndicator.t;
  put_call_options : FearAndGreedIndicator.t;
  market_momentum : FearAndGreedIndicator.t;
  stock_price_strength : FearAndGreedIndicator.t;
  stock_price_breadth : FearAndGreedIndicator.t;
  safe_haven_demand : FearAndGreedIndicator.t
}.

(** Lines 92-94: the composite timestamp.  [self.timestamp] is [None]
    from [__init__] unless the field is truthy. *)
Definition load_timestamp (timestamp_str : pyval) : result (option datetime) :=
  if truthy timestamp_str
  then match timestamp_str with
       | PStr s =>
           d <- fromisoformat (py_replace s "+00:00" "+0000") ;;
           OK (Some d)
       | _ => Raise AttributeError      (* no [replace] attribute *)
       end
  else OK None.

(** The model builder: [_load_fear_and_greed] from line 84 on, applied
    to the document [data] that the fetch returned. *)
Definition build (data : pyval) : result t :=
  get <- attr_get data ;;
  (* Load main index data *)
  let fg_data := get "fear_and_greed" (PDict []) in
  fg_get <- attr_get fg_data ;;
  ts <- load_timestamp (fg_get "timestamp" PNone) ;;
  (* Load historical data *)
  let fg_historical := get "fear_and_greed_historical" (PDict []) in
  hist_get <- attr_get fg_historical ;;
  (* Load indicators *)
  jbd <- FearAndGreedIndicator.__init__
           (indicator_name "junk_bond_demand") (get "junk_bond_demand" PNone) ;;
  vix <- FearAndGreedIndicator.__init__
           (indicator_name "market_volatility_vix") (get "market_volatility_vix" PNone) ;;
  pco <- FearAndGreedIndicator.__init__
           (indicator_name "put_call_options") (get "put_call_options" PNone) ;;
  mom <- FearAndGreedIndicator.__init__
           (indicator_name "market_momentum_sp500") (get "market_momentum_sp500" PNone) ;;
  sps <- FearAndGreedIndicator.__init__
           (indicator_name "stock_price_strength") (get "stock_price_strength" PNone) ;;
  spb <- FearAndGreedIndicator.__init__
           (indicator_name "stock_price_breadth") (get "stock_price_breadth" PNone) ;;
  shd <- FearAndGreedIndicator.__init__
           (indicator_name "safe_haven_demand") (get "safe_haven_demand" PNone) ;;
  OK {| score := fg_get "score" (PFloat 0);
        rating := fg_get "rating" (PStr "N/A");
        previous_close := fg_get "previous_close" (PFloat 0);
        previous_1_week := fg_get "previous_1_week" (PFloat 0);
        previous_1_month := fg_get "previous_1_month" (PFloat 0);
        previous_1_year := fg_get "previous_1_year" (PFloat 0);
        timestamp := ts;
        historical_data := hist_get "data" (PList []);
        junk_bond_demand := jbd;
        market_volatility := vix;
        put_call_options := pco;
        market_momentum := mom;
        stock_price_strength := sps;
        stock_price_breadth := spb;
        safe_haven_demand := shd |}.

Definition _load_fear_and_greed (net : network) : result t * network :=
  let (data, net') := scrape_cnn._get_fear_greed_data net in
  (d <- data ;; build d, net').

(** The constructor: it returns an object only if the load returns. *)
Definition __init__ (net : network) : result t * network :=
  _load_fear_and_greed net.

Definition all_indicators (self : t) : list FearAndGreedIndicator.t :=
  [ junk_bond_demand self;
    market_volatility self;
    put_call_options self;
    market_momentum self;
    stock_price_strength self;
    stock_price_breadth self;
    safe_haven_demand self ].

Definition get_historical_data (self : t) : pyval := historical_data self.

(** The colour of one bar: the body of the loop of
    [plot_all_indicators] (lines 276-286), which [plot_all_charts]
    repeats (lines 329-339). *)
Definition bar_color (score : pyval) : result string :=
  b <- py_lt score 25 ;;
  if b then OK "#8B0000" else
  b <- py_lt score 45 ;;
  if b then OK "#FF4500" else
  b <- py_lt score 55 ;;
  if b then OK "#FFD700" else
  b <- py_lt score 75 ;;
  if b then OK "#90EE90" else
  OK "#006400".

(** The list [colors] of [plot_all_indicators]. *)
Definition plot_all_indicators_colors (self : t) : result (list string) :=
  let scores := map FearAndGreedIndicator.score (all_indicators self) in
  mapM bar_color scores.

End WithRuntime.
Arguments t {RT}.
End CNNFearAndGreedIndex.

(** ** The front ends: derived metrics *)

(** The window of the historical series that the three history views
    iterate over: [fgi.get_historical_data()[-limit:]]. *)
Definition history_window {RT : Runtime} (fgi : CNNFearAndGreedIndex.t)
  (limit : pyval) : result pyval :=
  start <- py_neg limit ;;
  py_slice_from (CNNFearAndGreedIndex.get_historical_data fgi) start.

(** *** [api_server.py] *)
Module api_server.
Section WithRuntime.
Context {RT : Runtime}.

(** The pair [signal, recommendation] of [get_trading_signal]
    (lines 93-102); the response copies it next to score and rating. *)
Definition get_trading_signal (fgi : CNNFearAndGreedIndex.t)
  : result (string * string) :=
  let score := CNNFearAndGreedIndex.score fgi in
  b <- py_lt score 20 ;;
  if b then OK ("STRONG_BUY", "Extreme fear - potential buying opportunity") else
  b <- py_lt score 40 ;;
  if b then OK ("BUY", "Fear in market - consider accumulating") else
  b <- py_lt score 60 ;;
  if b then OK ("HOLD", "Neutral sentiment - maintain positions") else
  b <- py_lt score 80 ;;
  if b then OK ("SELL", "Greed in market - consider taking profits") else
  OK ("STRONG_SELL", "Extreme greed - potential market top").

(** The two shapes of the reply of [get_indicator]. *)
Inductive indicator_reply : Type :=
| Found (name : string) (score rating : pyval) (timestamp : option datetime)
| NotFound (error : string).

(** The [for ... return] loop of [get_indicator]. *)
Fixpoint first_match (name_lower : string) (inds : list FearAndGreedIndicator.t)
  : option FearAndGreedIndicator.t :=
  match inds with
  | [] => None
  | ind :: rest =>
      if py_in name_lower (py_lower (FearAndGreedIndicator.name ind))
      then Some ind
      else first_match name_lower rest
  end.

Definition get_indicator (fgi : CNNFearAndGreedIndex.t) (name : string)
  : indicator_reply :=
  let name_lower := py_replace (py_replace (py_lower name) "_" " ") "-" " " in
  match first_match name_lower (CNNFearAndGreedIndex.all_indicators fgi) with
  | Some ind =>
      Found (FearAndGreedIndicator.name ind)
            (FearAndGreedIndicator.score ind)
            (FearAndGreedIndicator.rating ind)
            (FearAndGreedIndicator.timestamp ind)
  | None => NotFound ("Indicator '" ++ name ++ "' not found")
  end.

(** One element of the list [get_historical] returns; [date] is the
    datetime whose [isoformat()] the element carries. *)
Record history_row : Type := {
  date : datetime;
  row_score : pyval;
  row_rating : pyval
}.

Definition history_row_of (d : pyval) : result history_row :=
  x <- py_getitem d "x" ;;
  seconds <- py_truediv x 1000 ;;
  date <- fromtimestamp seconds ;;
  y <- py_getitem d "y" ;;
  rating <- py_getitem d "rating" ;;
  OK {| date := date; row_score := y; row_rating := rating |}.

Definition get_historical (fgi : CNNFearAndGreedIndex.t) (limit : Z)
  : result (list history_row) :=
  historical <- history_window fgi (PInt limit) ;;
  points <- py_iter historical ;;
  mapM history_row_of points.

End WithRuntime.
Arguments indicator_reply {RT}.
Arguments history_row {RT}.
End api_server.

(** *** [fgi_cli.py] *)
Module fgi_cli.
Section WithRuntime.
Context {RT : Runtime}.

(** The emoji literals of the source, by code point. *)
Inductive emoji : Type :=
| U1F534   (* red circle *)
| U1F7E0   (* orange circle *)
| U1F7E1   (* yellow circle *)
| U1F7E2   (* green circle *)
| U1F49A   (* green heart *)
| U1F680   (* rocket *)
| U1F4C8   (* chart increasing *)
| U23F8    (* pause button *)
| U1F4C9   (* chart decreasing *)
| U1F6D1.  (* stop sign *)

Definition get_color_for_score (score : pyval) : result string :=
  b <- py_lt score 25 ;;
  if b then OK "red" else
  b <- py_lt score 45 ;;
  if b then OK "orange1" else
  b <- py_lt score 55 ;;
  if b then OK "yellow" else
  b <- py_lt score 75 ;;
  if b then OK "green" else
  OK "dark_green".

Definition get_emoji_for_score (score : pyval) : result emoji :=
  b <- py_lt score 25 ;;
  if b then OK U1F534 else
  b <- py_lt score 45 ;;
  if b then OK U1F7E0 else
  b <- py_lt score 55 ;;
  if b then OK U1F7E1 else
  b <- py_lt score 75 ;;
  if b then OK U1F7E2 else
  OK U1F49A.

(** What the [signal] command computes before printing its panel. *)
Record signal_view : Type := {
  signal_text : string;
  recommendation : string;
  color : string;
  signal_emoji : emoji
}.

Definition signal (fgi : CNNFearAndGreedIndex.t) : result signal_view :=
  let score := CNNFearAndGreedIndex.score fgi in
  b <- py_lt score 20 ;;
  if b then OK {| signal_text := "STRONG BUY";
                  recommendation := "Extreme fear - potential buying opportunity";
                  color := "green"; signal_emoji := U1F680 |} else
  b <- py_lt score 40 ;;
  if b then OK {| signal_text := "BUY";
                  recommendation := "Fear in market - consider accumulating";
                  color := "green"; signal_emoji := U1F4C8 |} else
  b <- py_lt score 60 ;;
  if b then OK {| signal_text := "HOLD";
                  recommendation := "Neutral sentiment - maintain positions";
                  color := "yellow"; signal_emoji := U23F8 |} else
  b <- py_lt score 80 ;;
  if b then OK {| signal_text := "SELL";
                  recommendation := "Greed in market - consider taking profits";
                  color := "orange1"; signal_emoji := U1F4C9 |} else
  OK {| signal_text := "STRONG SELL";
        recommendation := "Extreme greed - potential market top";
        color := "red"; signal_emoji := U1F6D1 |}.

(** One row of the table of [history], before its cells are formatted;
    [date] is the datetime whose [strftime] the row shows, and the
    rating is the text that [title()] is applied to. *)
Record history_row : Type := {
  date : datetime;
  row_score : pyval;
  row_rating : string;
  row_color : string;
  row_emoji : emoji
}.

Definition history_row_of (point : pyval) : result history_row :=
  x <- py_getitem point "x" ;;
  seconds <- py_truediv x 1000 ;;
  date <- fromtimestamp seconds ;;
  score <- py_getitem point "y" ;;
  rating <- py_getitem point "rating" ;;
  color <- get_color_for_score score ;;
  emoji <- get_emoji_for_score score ;;
  match rating with
  | PStr r =>
      OK {| date := date; row_score := score; row_rating := r;
            row_color := color; row_emoji := emoji |}
  | _ => Raise AttributeError      (* no [title] attribute *)
  end.

(** The rows that the [history] command prints, top to bottom. *)
Definition history (fgi : CNNFearAndGreedIndex.t) (limit : Z)
  : result (list history_row) :=
  historical <- history_window fgi (PInt limit) ;;
  points <- py_reversed historical ;;
  mapM history_row_of points.

End WithRuntime.
Arguments history_row {RT}.
End fgi_cli.

(** *** [app.py] *)
Module app.

Definition get_color_for_score (score : pyval) : result string :=
  b <- py_lt score 25 ;;
  if b then OK "#8B0000" else
  b <- py_lt score 45 ;;
  if b then OK "#FF4500" else
  b <- py_lt score 55 ;;
  if b then OK "#FFD700" else
  b <- py_lt score 75 ;;
  if b then OK "#32CD32" else
  OK "#006400".

End app.

(** *** [fgi_mcp_server.py] *)
Module fgi_mcp_server.
Section WithRuntime.
Context {RT : Runtime}.

(** The pair [signal, recommendation] of the branch
    [get_trading_signal] of [call_tool] (lines 138-152). *)
Definition get_trading_signal (fgi : CNNFearAndGreedIndex.t)
  : result (string * string) :=
  let score := CNNFearAndGreedIndex.score fgi in
  b <- py_lt score 20 ;;
  if b then OK ("STRONG BUY", "Extreme fear in the market. Historically, this represents a potential buying opportunity as markets tend to be oversold.") else
  b <- py_lt score 40 ;;
  if b then OK ("BUY", "Fear in the market. Consider accumulating positions as sentiment is pessimistic.") else
  b <- py_lt score 60 ;;
  if b then OK ("HOLD", "Neutral sentiment. Market is balanced - maintain current positions.") else
  b <- py_lt score 80 ;;
  if b then OK ("SELL", "Greed in the market. Consider taking profits as sentiment is optimistic.") else
  OK ("STRONG SELL", "Extreme greed in the market. Historically, this represents a potential market top. Exercise caution.").

(** One line of the text of the tool [get_fear_greed_history], before
    it is formatted: the date, the number printed with one decimal and
    the rating. *)
Record history_line : Type := {
  date : datetime;
  line_score : Q;
  line_rating : pyval
}.

Definition history_line_of (point : pyval) : result history_line :=
  x <- py_getitem point "x" ;;
  seconds <- py_truediv x 1000 ;;
  date <- fromtimestamp seconds ;;
  y <- py_getitem point "y" ;;
  score <- py_format_f y ;;
  rating <- py_getitem point "rating" ;;
  OK {| date := date; line_score := score; line_rating := rating |}.

(** The branch [get_fear_greed_history] of [call_tool]: the lines after
    the two header lines; [arguments] are the items of the tool-call
    dict. *)
Definition get_fear_greed_history (fgi : CNNFearAndGreedIndex.t)
  (arguments : list (string * pyval)) : result (list history_line) :=
  let days := dict_get arguments "days" (PInt 10) in
  historical <- history_window fgi days ;;
  points <- py_reversed historical ;;
  mapM history_line_of points.

End WithRuntime.
Arguments history_line {RT}.
End fgi_mcp_server.

(** ** The vocabulary of the specification *)

(** *** Trading signal (specification, section 4.3): the table
    [< 20], [[20,40)], [[40,60)], [[60,80)], [>= 80]. *)
Inductive Signal : Type := STRONG_BUY | BUY | HOLD | SELL | STRONG_SELL.

Inductive spec_signal_band : Q -> Signal -> Prop :=
| in_strong_buy (s : Q) : s < 20 -> spec_signal_band s STRONG_BUY
| in_buy (s : Q) : 20 <= s -> s < 40 -> spec_signal_band s BUY
| in_hold (s : Q) : 40 <= s -> s < 60 -> spec_signal_band s HOLD
| in_sell (s : Q) : 60 <= s -> s < 80 -> spec_signal_band s SELL
| in_strong_sell (s : Q) : 80 <= s -> spec_signal_band s STRONG_SELL.

(** The signal names of the REST adapter and of the terminal and tool
    views, the recommendation that the REST adapter and the terminal view
    attach to a band, and the one of the tool view. *)
Definition api_signal_name (b : Signal) : string :=
  match b with
  | STRONG_BUY => "STRONG_BUY"
  | BUY => "BUY"
  | HOLD => "HOLD"
  | SELL => "SELL"
  | STRONG_SELL => "STRONG_SELL"
  end.

Definition cli_signal_name (b : Signal) : string :=
  match b with
  | STRONG_BUY => "STRONG BUY"
  | BUY => "BUY"
  | HOLD => "HOLD"
  | SELL => "SELL"
  | STRONG_SELL => "STRONG SELL"
  end.

Definition signal_recommendation (b : Signal) : string :=
  match b with
  | STRONG_BUY => "Extreme fear - potential buying opportunity"
  | BUY => "Fear in market - consider accumulating"
  | HOLD => "Neutral sentiment - maintain positions"
  | SELL => "Greed in market - consider taking profits"
  | STRONG_SELL => "Extreme greed - potential market top"
  end.

Definition tool_recommendation (b : Signal) : string :=
  match b with
  | STRONG_BUY => "Extreme fear in the market. Historically, this represents a potential buying opportunity as markets tend to be oversold."
  | BUY => "Fear in the market. Consider accumulating positions as sentiment is pessimistic."
  | HOLD => "Neutral sentiment. Market is balanced - maintain current positions."
  | SELL => "Greed in the market. Consider taking profits as sentiment is optimistic."
  | STRONG_SELL => "Extreme greed in the market. Historically, this represents a potential market top. Exercise caution."
  end.

(** *** Severity banding (specification, section 4.3): boundaries 25,
    45, 55, 75. *)
Inductive Severity : Type :=
  extreme_fear | fear | neutral | greed | extreme_greed.

Inductive spec_severity_band : Q -> Severity -> Prop :=
| in_extreme_fear (s : Q) : s < 25 -> spec_severity_band s extreme_fear
| in_fear (s : Q) : 25 <= s -> s < 45 -> spec_severity_band s fear
| in_neutral (s : Q) : 45 <= s -> s < 55 -> spec_severity_band s neutral
| in_greed (s : Q) : 55 <= s -> s < 75 -> spec_severity_band s greed
| in_extreme_greed (s : Q) : 75 <= s -> spec_severity_band s extreme_greed.

(** What each presentation function shows for a band. *)
Definition cli_color (b : Severity) : string :=
  match b with
  | extreme_fear => "red"
  | fear => "orange1"
  | neutral => "yellow"
  | greed => "green"
  | extreme_greed => "dark_green"
  end.

Definition cli_emoji (b : Severity) : fgi_cli.emoji :=
  match b with
  | extreme_fear => fgi_cli.U1F534
  | fear => fgi_cli.U1F7E0
  | neutral => fgi_cli.U1F7E1
  | greed => fgi_cli.U1F7E2
  | extreme_greed => fgi_cli.U1F49A
  end.

Definition dashboard_color (b : Severity) : string :=
  match b with
  | extreme_fear => "#8B0000"
  | fear => "#FF4500"
  | neutral => "#FFD700"
  | greed => "#32CD32"
  | extreme_greed => "#006400"
  end.

Definition chart_color (b : Severity) : string :=
  match b with
  | extreme_fear => "#8B0000"
  | fear => "#FF4500"
  | neutral => "#FFD700"
  | greed => "#90EE90"
  | extreme_greed => "#006400"
  end.

(** *** Documents *)

(** The document without its entry [key]. *)
Fixpoint drop_key (key : string) (items : list (string * pyval))
  : list (string * pyval) :=
  match items with
  | [] => []
  | (k, v) :: rest =>
      if k =? key then drop_key key rest else (k, v) :: drop_key key rest
  end.

(** The document with [f] applied to its entry [key]. *)
Fixpoint update_key (key : string) (f : pyval -> pyval)
  (items : list (string * pyval)) : list (string * pyval) :=
  match items with
  | [] => []
  | (k, v) :: rest =>
      (k, if k =? key then f v else v) :: update_key key f rest
  end.

(** Removing a field of a mapping, and a field of one of its
    sub-objects. *)
Definition without_field (field : string) (v : pyval) : pyval :=
  match v with
  | PDict items => PDict (drop_key field items)
  | _ => v
  end.

Definition without_subfield (key field : string) (v : pyval) : pyval :=
  match v with
  | PDict items => PDict (update_key key (without_field field) items)
  | _ => v
  end.

(** The seven keys and the seven canonical names, in the order of
    [all_indicators]. *)
Definition indicator_keys : list string :=
  map fst CNNFearAndGreedIndex._INDICATOR_MAP.

Definition canonical_names : list string :=
  map snd CNNFearAndGreedIndex._INDICATOR_MAP.

(** *** The documents the builder accepts *)
Section Acceptance.
Context {RT : Runtime}.

(** The composite ["timestamp"]: falsy, or a text that the runtime
    parses once normalised. *)
Definition composite_timestamp_ok (t : pyval) : bool :=
  negb (truthy t) ||
  match t with
  | PStr s => succeeds (fromisoformat (py_replace s "+00:00" "+0000"))
  | _ => false
  end.

Definition composite_ok (fg_data : pyval) : bool :=
  match fg_data with
  | PDict fg => composite_timestamp_ok (dict_get fg "timestamp" PNone)
  | _ => false
  end.

Definition historical_ok (fg_historical : pyval) : bool :=
  match fg_historical with
  | PDict _ => true
  | _ => false
  end.

(** An indicator ["timestamp"]: falsy, or a number of milliseconds
    that the runtime converts. *)
Definition indicator_timestamp_ok (t : pyval) : bool :=
  negb (truthy t) ||
  match num_value t with
  | Some ms => succeeds (fromtimestamp (ms / inject_Z 1000))
  | None => false
  end.

Definition indicator_ok (data : pyval) : bool :=
  negb (truthy data) ||
  match data with
  | PDict d => indicator_timestamp_ok (dict_get d "timestamp" PNone)
  | _ => false
  end.

(** Everything but the composite sub-object. *)
Definition rest_ok (items : list (string * pyval)) : bool :=
  historical_ok (dict_get items "fear_and_greed_historical" (PDict [])) &&
  forallb (fun key => indicator_ok (dict_get items key PNone)) indicator_keys.

Definition well_formed (items : list (string * pyval)) : bool :=
  composite_ok (dict_get items "fear_and_greed" (PDict [])) && rest_ok items.

End Acceptance.

(** A field that a sub-object does not carry. *)
Definition field_missing (v : pyval) (field : string) : Prop :=
  match v with
  | PDict d => dict_find d field = None
  | _ => True
  end.

(** *** Fuzzy lookup (specification, section 4.3) *)

(** Lower-case, with underscores and hyphens turned into spaces. *)
Definition spec_normalize_char (c : ascii) : ascii :=
  if (c =? "_")%char || (c =? "-")%char then " "%char else lower_char c.

Fixpoint spec_normalize (s : string) : string :=
  match s with
  | EmptyString => EmptyString
  | String c rest => String (spec_normalize_char c) (spec_normalize rest)
  end.

Definition is_substring (needle hay : string) : Prop :=
  exists pre suf : string, hay = pre ++ needle ++ suf.

(** *** History windows *)

(** The last [k] elements of a list. *)
Definition lastn {A : Type} (k : nat) (l : list A) : list A :=
  skipn (List.length l - k) l.

(** ** A runtime and documents to run the model on *)

(** A runtime for the examples: a datetime is the text or the number of
    seconds it was made from; a text that does not begin with a digit is
    rejected. *)
Inductive stamp : Type :=
| OfText (s : string)
| OfSeconds (q : Q).

Definition begins_with_digit (s : string) : bool :=
  match s with
  | EmptyString => false
  | String c _ => ((48 <=? nat_of_ascii c) && (nat_of_ascii c <=? 57))%nat
  end.

Definition example_runtime : Runtime := {|
  datetime := stamp;
  fromisoformat := fun s =>
    if begins_with_digit s then OK (OfText s) else Raise ValueError;
  fromtimestamp := fun q => OK (OfSeconds q)
|}.

Definition point (x : Z) (y : Q) (rating : string) : pyval :=
  PDict [("x", PInt x); ("y", PFloat y); ("rating", PStr rating)].

Definition three_points : list pyval :=
  [ point 1733011200000 (452 # 10) "fear";
    point 1733097600000 (501 # 10) "neutral";
    point 1733184000000 (723 # 10) "greed" ].

(** A document of the upstream shape: composite score 72.3. *)
Definition example_document : list (string * pyval) :=
  [ ("fear_and_greed",
     PDict [ ("score", PFloat (723 # 10));
             ("rating", PStr "greed");
             ("timestamp", PStr "2024-12-02T23:59:55+00:00");
             ("previous_close", PFloat (70 # 1));
             ("previous_1_week", PFloat (655 # 10));
             ("previous_1_month", PFloat (501 # 10));
             ("previous_1_year", PFloat (452 # 10)) ]);
    ("fear_and_greed_historical", PDict [ ("data", PList three_points) ]);
    ("market_volatility_vix",
     PDict [ ("score", PFloat (50 # 1));
             ("rating", PStr "neutral");
             ("timestamp", PInt 1733184000000);
             ("data", PList []) ]);
    ("junk_bond_demand",
     PDict [ ("score", PInt 20); ("rating", PStr "extreme fear") ]) ].

(** The same entries, listed in another order. *)
Definition example_document_reordered : list (string * pyval) :=
  rev example_document.

(** Only a historical series. *)
Definition document_history_only : list (string * pyval) :=
  [ ("fear_and_greed_historical", PDict [ ("data", PList three_points) ]) ].

(** The composite sub-object is JSON [null]. *)
Definition document_null_composite : list (string * pyval) :=
  [ ("fear_and_greed", PNone);
    ("fear_and_greed_historical", PDict [ ("data", PList three_points) ]) ].

(** No composite sub-object, and a historical entry that is a list. *)
Definition document_list_historical : list (string * pyval) :=
  [ ("fear_and_greed_historical", PList three_points) ].

Definition blank_snapshot : @CNNFearAndGreedIndex.t example_runtime :=
  let ind := @FearAndGreedIndicator.blank example_runtime in
  @CNNFearAndGreedIndex.mk example_runtime
    (PFloat 0) (PStr "N/A") (PFloat 0) (PFloat 0) (PFloat 0) (PFloat 0)
    None (PList [])
    (ind "Junk Bond Demand") (ind "Market Volatility (VIX)")
    (ind "Put and Call Options") (ind "Market Momentum (S&P 500)")
    (ind "Stock Price Strength") (ind "Stock Price Breadth")
    (ind "Safe Haven Demand").

(** The snapshot built from [example_document]. *)
Definition example_snapshot : @CNNFearAndGreedIndex.t example_runtime :=
  Eval vm_compute in
    match @CNNFearAndGreedIndex.build example_runtime (PDict example_document) with
    | OK fgi => fgi
    | Raise _ => blank_snapshot
    end.

(** A snapshot with a given composite score. *)
Definition snapshot_scoring (v : pyval) : @CNNFearAndGreedIndex.t example_runtime :=
  let ind := @FearAndGreedIndicator.blank example_runtime in
  @CNNFearAndGreedIndex.mk example_runtime
    v (PStr "N/A") (PFloat 0) (PFloat 0) (PFloat 0) (PFloat 0)
    None (PList [])
    (ind "Junk Bond Demand") (ind "Market Volatility (VIX)")
    (ind "Put and Call Options") (ind "Market Momentum (S&P 500)")
    (ind "Stock Price Strength") (ind "Stock Price Breadth")
    (ind "Safe Haven Demand").

(** Networks: every call is answered the same way. *)
Definition network_answering (r : reply) : network :=
  {| server := fun _ _ => r; sent := [] |}.

Definition the_request : request :=
  {| req_url := scrape_cnn.API_URL;
     req_headers := scrape_cnn._HEADERS;
     req_timeout := 30 |}.

(** ** [api_server.py], continued: the snapshot cache *)
Module api_server_cache.
Section WithRuntime.
Context {RT : Runtime}.

(** The module-level dict [_cache]: the cached snapshot and the reading
    of the clock, in seconds, at which it was fetched. *)
Record cache : Type := {
  data : option CNNFearAndGreedIndex.t;
  timestamp : option Q
}.

(** Its value when the module is loaded. *)
Definition _cache : cache := {| data := None; timestamp := None |}.

(** [get_fgi()], with [now] the reading of [datetime.now()].  The
    assignments to [_cache] are reached only if the constructor
    returns. *)
Definition get_fgi (now : Q) (c : cache) (net : network)
  : result CNNFearAndGreedIndex.t * cache * network :=
  let refresh :=
    let (r, net') := CNNFearAndGreedIndex.__init__ net in
    match r with
    | OK fgi => (OK fgi, {| data := Some fgi; timestamp := Some now |}, net')
    | Raise e => (Raise e, c, net')
    end in
  match data c, timestamp c with
  | Some fgi, Some fetched =>
      if Qltb 300 (now - fetched) then refresh else (OK fgi, c, net)
  | _, _ => refresh
  end.

End WithRuntime.
Arguments cache {RT}.
End api_server_cache.

(** ** More vocabulary *)

(** The entries of the raw document that the builder reads. *)
Definition recognised_keys : list string :=
  "fear_and_greed" :: "fear_and_greed_historical" :: indicator_keys.

(** The bands, from fear to greed. *)
Definition signal_rank (b : Signal) : nat :=
  match b with
  | STRONG_BUY => 0
  | BUY => 1
  | HOLD => 2
  | SELL => 3
  | STRONG_SELL => 4
  end.

Definition severity_rank (b : Severity) : nat :=
  match b with
  | extreme_fear => 0
  | fear => 1
  | neutral => 2
  | greed => 3
  | extreme_greed => 4
  end.

(** A point of a historical series that the history views can show:
    a mapping with a numeric ["x"] that the runtime converts, a ["y"]
    and a ["rating"]. *)
Definition point_shows {RT : Runtime} (p : pyval)
  (date : datetime) (y rating : pyval) : Prop :=
  exists (d : list (string * pyval)) (x : pyval) (ms : Q),
    p = PDict d /\
    dict_find d "x" = Some x /\
    num_value x = Some ms /\
    fromtimestamp (ms / inject_Z 1000) = OK date /\
    dict_find d "y" = Some y /\
    dict_find d "rating" = Some rating.

(** A document whose composite score is JSON [null]. *)
Definition document_null_score : list (string * pyval) :=
  [ ("fear_and_greed", PDict [ ("score", PNone); ("rating", PStr "greed") ]) ].

(** Five points, the second of which lacks its ["y"]. *)
Definition five_points : list pyval :=
  [ point 1732838400000 (40 # 1) "fear";
    PDict [("x", PInt 1732924800000); ("rating", PStr "fear")];
    point 1733011200000 (452 # 10) "fear";
    point 1733097600000 (501 # 10) "neutral";
    point 1733184000000 (723 # 10) "greed" ].

Definition snapshot_with_series (series : pyval)
  : @CNNFearAndGreedIndex.t example_runtime :=
  let ind := @FearAndGreedIndicator.blank example_runtime in
  @CNNFearAndGreedIndex.mk example_runtime
    (PFloat 0) (PStr "N/A") (PFloat 0) (PFloat 0) (PFloat 0) (PFloat 0)
    None series
    (ind "Junk Bond Demand") (ind "Market Volatility (VIX)")
    (ind "Put and Call Options") (ind "Market Momentum (S&P 500)")
    (ind "Stock Price Strength") (ind "Stock Price Breadth")
    (ind "Safe Haven Demand").

(** A network whose first call is answered with [example_document] and
    every later call times out. *)
Definition network_answering_once : network :=
  {| server := fun n _ =>
       match n with
       | O => Responded 200 (Some (PDict example_document))
       | S _ => TimedOut
       end;
     sent := [] |}.

(** ** Text output *)

(** What the text reports leave to the Python runtime: [format(value,
    spec)], that is the [{value:spec}] of an f-string, which may raise;
    [strftime]; and the subtraction [a - b] of two values (exact on
    integers, rounded on floats), which may raise. *)
Class Formatting {RT : Runtime} : Type := {
  format_value : pyval -> string -> result string;
  strftime : datetime -> string -> string;
  subtract : pyval -> pyval -> result pyval
}.

Definition nl : string := String (ascii_of_nat 10) EmptyString.

(** [n * c] for a one-character string [c]; a count below one gives the
    empty string. *)
Fixpoint string_repeat (n : nat) (c : ascii) : string :=
  match n with
  | O => EmptyString
  | S k => String c (string_repeat k c)
  end.

Definition is_letter (c : ascii) : bool :=
  let n := nat_of_ascii c in
  (((65 <=? n) && (n <=? 90)) || ((97 <=? n) && (n <=? 122)))%nat.

Definition upper_char (c : ascii) : ascii :=
  let n := nat_of_ascii c in
  if ((97 <=? n) && (n <=? 122))%nat then ascii_of_nat (n - 32) else c.

(** [s.title()]: a letter is put in upper case when the character
    before it is not a letter, and in lower case when it is. *)
Fixpoint title_from (previous_is_cased : bool) (s : string) : string :=
  match s with
  | EmptyString => EmptyString
  | String c rest =>
      String (if is_letter c
              then if previous_is_cased then lower_char c else upper_char c
              else c)
             (title_from (is_letter c) rest)
  end.

Definition py_title (s : string) : string := title_from false s.

(** [v.title()]: only a string has the attribute. *)
Definition attr_title (v : pyval) : result string :=
  match v with
  | PStr s => OK (py_title s)
  | _ => Raise AttributeError
  end.

(** *** [FearAndGreedIndicator.py] and [CNNFearAndGreedIndex.py]: the
    reports *)
Module text_reports.
Section WithFormatting.
Context {RT : Runtime} {FMT : Formatting}.

(** [FearAndGreedIndicator.get_report] *)
Definition get_report (self : FearAndGreedIndicator.t) : result string :=
  let timestamp_str :=
    match FearAndGreedIndicator.timestamp self with
    | Some d => strftime d "%b %d at %I:%M%p"
    | None => "N/A"
    end in
  rating <- attr_title (FearAndGreedIndicator.rating self) ;;
  score <- format_value (FearAndGreedIndicator.score self) ".1f" ;;
  let report :=
    FearAndGreedIndicator.name self ++ ": " ++ rating ++ " (" ++ score ++ ")" in
  OK (report ++ string_repeat (80 - String.length report) " "
             ++ "[Updated " ++ timestamp_str ++ "]").

(** [CNNFearAndGreedIndex.get_index_summary] *)
Definition get_index_summary (self : CNNFearAndGreedIndex.t) : result string :=
  score <- format_value (CNNFearAndGreedIndex.score self) ".1f" ;;
  rating <- attr_title (CNNFearAndGreedIndex.rating self) ;;
  previous_close <- format_value (CNNFearAndGreedIndex.previous_close self) ".1f" ;;
  previous_1_week <- format_value (CNNFearAndGreedIndex.previous_1_week self) ".1f" ;;
  previous_1_month <- format_value (CNNFearAndGreedIndex.previous_1_month self) ".1f" ;;
  previous_1_year <- format_value (CNNFearAndGreedIndex.previous_1_year self) ".1f" ;;
  OK ("Fear & Greed Now: " ++ score ++ " (" ++ rating ++ ")" ++ nl
      ++ "   Previous Close: " ++ previous_close ++ nl
      ++ "   1 Week Ago: " ++ previous_1_week ++ nl
      ++ "   1 Month Ago: " ++ previous_1_month ++ nl
      ++ "   1 Year Ago: " ++ previous_1_year).

(** [CNNFearAndGreedIndex.get_indicators_report] *)
Definition get_indicators_report (self : CNNFearAndGreedIndex.t) : result string :=
  reports <- mapM get_report (CNNFearAndGreedIndex.all_indicators self) ;;
  OK (String.concat nl reports).

(** [CNNFearAndGreedIndex.get_complete_report] *)
Definition get_complete_report (self : CNNFearAndGreedIndex.t) : result string :=
  summary <- get_index_summary self ;;
  indicators <- get_indicators_report self ;;
  OK (summary ++ nl ++ nl ++ indicators).

End WithFormatting.
End text_reports.

(** *** [fgi_mcp_server.py]: the tools *)
Module fgi_mcp_tools.
Section WithFormatting.
Context {RT : Runtime} {FMT : Formatting}.

Record Tool : Type := {
  name : string;
  description : string;
  inputSchema : pyval
}.

Definition no_arguments : pyval :=
  PDict [("type", PStr "object"); ("properties", PDict []); ("required", PList [])].

Definition list_tools : list Tool :=
  [ {| name := "get_fear_greed_score";
       description := "Get the current CNN Fear & Greed Index score and rating. Returns the overall market sentiment score (0-100) and rating (Extreme Fear, Fear, Neutral, Greed, Extreme Greed).";
       inputSchema := no_arguments |};
    {| name := "get_fear_greed_indicators";
       description := "Get all individual Fear & Greed indicators with their scores. Includes: Market Momentum, Stock Price Strength, Stock Price Breadth, Put/Call Options, Market Volatility, Safe Haven Demand, Junk Bond Demand.";
       inputSchema := no_arguments |};
    {| name := "get_fear_greed_comparison";
       description := "Get Fear & Greed Index comparison with previous periods. Shows current score vs previous close, 1 week ago, 1 month ago, and 1 year ago.";
       inputSchema := no_arguments |};
    {| name := "get_trading_signal";
       description := "Get a trading signal based on the Fear & Greed Index. Returns STRONG BUY, BUY, HOLD, SELL, or STRONG SELL with explanation.";
       inputSchema := no_arguments |};
    {| name := "get_fear_greed_history";
       description := "Get historical Fear & Greed Index data.";
       inputSchema :=
         PDict [("type", PStr "object");
                ("properties",
                 PDict [("days",
                         PDict [("type", PStr "integer");
                                ("description",
                                 PStr "Number of days of history to return (default: 10)");
                                ("default", PInt 10)])]);
                ("required", PList [])] |};
    {| name := "get_complete_report";
       description := "Get a complete Fear & Greed Index report with all data.";
       inputSchema := no_arguments |} ].

(** [get_fgi_data()]: a fresh snapshot at every call. *)
Definition get_fgi_data (net : network) : result CNNFearAndGreedIndex.t * network :=
  CNNFearAndGreedIndex.__init__ net.

Definition score_text (fgi : CNNFearAndGreedIndex.t) : result string :=
  score <- format_value (CNNFearAndGreedIndex.score fgi) ".1f" ;;
  rating <- format_value (CNNFearAndGreedIndex.rating fgi) EmptyString ;;
  let timestamp :=
    match CNNFearAndGreedIndex.timestamp fgi with
    | Some d => strftime d "%Y-%m-%d %H:%M:%S"
    | None => "N/A"
    end in
  OK ("CNN Fear & Greed Index" ++ nl
      ++ "======================" ++ nl
      ++ "Score: " ++ score ++ "/100" ++ nl
      ++ "Rating: " ++ rating ++ nl
      ++ "Timestamp: " ++ timestamp).

Definition indicator_line (ind : FearAndGreedIndicator.t) : result string :=
  score <- format_value (FearAndGreedIndicator.score ind) ".1f" ;;
  rating <- format_value (FearAndGreedIndicator.rating ind) EmptyString ;;
  OK (FearAndGreedIndicator.name ind ++ ": " ++ score ++ " (" ++ rating ++ ")").

Definition indicators_text (fgi : CNNFearAndGreedIndex.t) : result string :=
  lines <- mapM indicator_line (CNNFearAndGreedIndex.all_indicators fgi) ;;
  OK (String.concat nl
        ("Fear & Greed Indicators" :: string_repeat 50 "=" :: lines)).

Definition signal_text (fgi : CNNFearAndGreedIndex.t) : result string :=
  chosen <- fgi_mcp_server.get_trading_signal fgi ;;
  let (signal, recommendation) := chosen in
  score <- format_value (CNNFearAndGreedIndex.score fgi) ".1f" ;;
  rating <- format_value (CNNFearAndGreedIndex.rating fgi) EmptyString ;;
  OK ("Trading Signal: " ++ signal ++ nl
      ++ "================" ++ nl
      ++ "Score: " ++ score ++ " (" ++ rating ++ ")" ++ nl ++ nl
      ++ "Analysis: " ++ recommendation ++ nl ++ nl
      ++ "Disclaimer: This is not financial advice. The Fear & Greed Index is one of many indicators and should not be used as the sole basis for investment decisions.").

Definition history_line_text (point : pyval) : result string :=
  x <- py_getitem point "x" ;;
  seconds <- py_truediv x 1000 ;;
  d <- fromtimestamp seconds ;;
  let date := strftime d "%Y-%m-%d" in
  y <- py_getitem point "y" ;;
  score <- format_value y ".1f" ;;
  r <- py_getitem point "rating" ;;
  rating <- format_value r EmptyString ;;
  OK (date ++ ": " ++ score ++ " (" ++ rating ++ ")").

Definition history_text (fgi : CNNFearAndGreedIndex.t) (days : pyval)
  : result string :=
  historical <- history_window fgi days ;;
  shown <- format_value days EmptyString ;;
  points <- py_reversed historical ;;
  lines <- mapM history_line_text points ;;
  OK (String.concat nl
        (("Fear & Greed History (Last " ++ shown ++ " Days)")
           :: string_repeat 40 "=" :: lines)).

(** One line of the comparison: a previous score and its change. *)
Definition comparison_line (label : string) (score previous : pyval)
  : result string :=
  shown <- format_value previous ".1f" ;;
  change <- subtract score previous ;;
  delta <- format_value change "+.1f" ;;
  OK (label ++ ": " ++ shown ++ " (change: " ++ delta ++ ")").

Definition comparison_text (fgi : CNNFearAndGreedIndex.t) : result string :=
  let current := CNNFearAndGreedIndex.score fgi in
  score <- format_value current ".1f" ;;
  close <- comparison_line "Previous Close" current
             (CNNFearAndGreedIndex.previous_close fgi) ;;
  week <- comparison_line "1 Week Ago" current
            (CNNFearAndGreedIndex.previous_1_week fgi) ;;
  month <- comparison_line "1 Month Ago" current
             (CNNFearAndGreedIndex.previous_1_month fgi) ;;
  year <- comparison_line "1 Year Ago" current
            (CNNFearAndGreedIndex.previous_1_year fgi) ;;
  OK ("Fear & Greed Comparison" ++ nl
      ++ "=======================" ++ nl
      ++ "Current Score: " ++ score ++ nl
      ++ close ++ nl ++ week ++ nl ++ month ++ nl ++ year).

(** A branch of [call_tool] that fetches a snapshot and formats it. *)
Definition fetch_then (text : CNNFearAndGreedIndex.t -> result string)
  (net : network) : result string * network :=
  let (r, net') := get_fgi_data net in
  (fgi <- r ;; text fgi, net').

(** [call_tool(name, arguments)]: the text of the single [TextContent]
    it returns. *)
Definition call_tool (name : string) (arguments : list (string * pyval))
  (net : network) : result string * network :=
  if name =? "get_fear_greed_score" then fetch_then score_text net
  else if name =? "get_fear_greed_indicators" then fetch_then indicators_text net
  else if name =? "get_fear_greed_comparison" then fetch_then comparison_text net
  else if name =? "get_trading_signal" then fetch_then signal_text net
  else if name =? "get_fear_greed_history" then
    let days := dict_get arguments "days" (PInt 10) in
    fetch_then (fun fgi => history_text fgi days) net
  else if name =? "get_complete_report"
       then fetch_then text_reports.get_complete_report net
  else (OK ("Unknown tool: " ++ name), net).

End WithFormatting.
End fgi_mcp_tools.

(** A formatting for the examples: a number is printed with one decimal,
    cut off; a text as it is. *)
Definition example_number_text (q : Q) : string :=
  let tenths := (Qnum q * 10 / Z.pos (Qden q))%Z in
  DecimalString.NilZero.string_of_int (Z.to_int (tenths / 10)) ++ "."
  ++ DecimalString.NilZero.string_of_int (Z.to_int (tenths mod 10)).

Definition example_strftime (d : stamp) (fmt : string) : string :=
  match d with
  | OfText s => s
  | OfSeconds q => example_number_text q
  end.

Definition example_format_value (v : pyval) (spec : string) : result string :=
  match v with
  | PStr s => if spec =? EmptyString then OK s else Raise ValueError
  | _ => match num_value v with
         | Some q => OK (example_number_text q)
         | None => if spec =? EmptyString then OK "None" else Raise TypeError
         end
  end.

Definition example_subtract (a b : pyval) : result pyval :=
  match num_value a, num_value b with
  | Some x, Some y => OK (PFloat (x - y))
  | _, _ => Raise TypeError
  end.

Definition example_formatting : @Formatting example_runtime :=
  @Build_Formatting example_runtime
    example_format_value example_strftime example_subtract.

(** A document whose composite timestamp carries another offset, one
    whose composite timestamp is in epoch milliseconds, and
    [example_document] with an entry the builder does not know. *)
Definition document_other_offset : list (string * pyval) :=
  [ ("fear_and_greed",
     PDict [ ("score", PFloat (50 # 1));
             ("timestamp", PStr "2024-12-02T18:59:55-05:00") ]) ].

Definition document_epoch_composite : list (string * pyval) :=
  [ ("fear_and_greed",
     PDict [ ("score", PFloat (50 # 1));
             ("timestamp", PInt 1733184000000) ]) ].

Definition example_document_extended : list (string * pyval) :=
  ("crypto_fear_and_greed", PDict [("score", PStr "n/a")]) :: example_document.

(** A cache filled at clock reading 0. *)
Definition cache_filled_at_0 : @api_server_cache.cache example_runtime :=
  @api_server_cache.Build_cache example_runtime (Some example_snapshot) (Some 0).

(** ** [datetime.fromisoformat] on upstream's timestamps *)

(** Upstream writes the composite timestamp the way [datetime.isoformat]
    writes a datetime in UTC: ["2024-12-02T23:59:55+00:00"], with six
    digits of microseconds after the seconds when they are not zero.
    Line 94 rewrites the offset to ["+0000"] and hands the text to
    [datetime.fromisoformat].  CPython reads that basic form of the
    offset from version 3.11 on; this module is its parser on these
    texts.  Before 3.11 the parser read only the offset with a colon. *)
Module py_datetime.

(** [datetime(year, month, day, hour, minute, second, microsecond,
    tzinfo)]; [utcoffset] is [None] for a naive datetime, and the
    seconds east of UTC otherwise. *)
Record t : Type := mk {
  year : Z;
  month : Z;
  day : Z;
  hour : Z;
  minute : Z;
  second : Z;
  microsecond : Z;
  utcoffset : option Z
}.

Definition is_leap (y : Z) : bool :=
  ((y mod 4 =? 0) && (negb (y mod 100 =? 0) || (y mod 400 =? 0)))%Z.

Definition days_in_month (y m : Z) : Z :=
  if (m =? 2)%Z then (if is_leap y then 29 else 28)
  else if ((m =? 4) || (m =? 6) || (m =? 9) || (m =? 11))%Z then 30
  else 31.

(** The range checks of the constructor. *)
Definition valid (d : t) : bool :=
  ((1 <=? year d) && (year d <=? 9999) &&
   (1 <=? month d) && (month d <=? 12) &&
   (1 <=? day d) && (day d <=? days_in_month (year d) (month d)) &&
   (0 <=? hour d) && (hour d <=? 23) &&
   (0 <=? minute d) && (minute d <=? 59) &&
   (0 <=? second d) && (second d <=? 59) &&
   (0 <=? microsecond d) && (microsecond d <=? 999999))%Z.

Definition digit_char (k : Z) : ascii := ascii_of_nat (Z.to_nat (48 + k)).

Definition digit_of (c : ascii) : option Z :=
  let n := Z.of_nat (nat_of_ascii c) in
  if ((48 <=? n) && (n <=? 57))%Z then Some (n - 48)%Z else None.

(** ["%0<width>d" % v], most significant digit first. *)
Fixpoint zero_padded (width : nat) (v : Z) : string :=
  match width with
  | O => EmptyString
  | S w => String (digit_char ((v / 10 ^ Z.of_nat w) mod 10)) (zero_padded w v)
  end.

(** [d.isoformat()] up to the offset. *)
Definition clock_text (d : t) : string :=
  zero_padded 4 (year d) ++ "-" ++ zero_padded 2 (month d) ++ "-" ++
  zero_padded 2 (day d) ++ "T" ++
  zero_padded 2 (hour d) ++ ":" ++ zero_padded 2 (minute d) ++ ":" ++
  zero_padded 2 (second d) ++
  (if (microsecond d =? 0)%Z then EmptyString
   else "." ++ zero_padded 6 (microsecond d)).

Definition and_then {A B : Type} (o : option A) (k : A -> option B) : option B :=
  match o with
  | Some a => k a
  | None => None
  end.

(** Exactly [n] decimal digits, and what follows them. *)
Fixpoint read_digits (n : nat) (acc : Z) (s : string) : option (Z * string) :=
  match n with
  | O => Some (acc, s)
  | S n' =>
      match s with
      | String c rest =>
          and_then (digit_of c) (fun k => read_digits n' (10 * acc + k) rest)
      | EmptyString => None
      end
  end.

Definition expect (c : ascii) (s : string) : option string :=
  match s with
  | String a rest => if (a =? c)%char then Some rest else None
  | EmptyString => None
  end.

(** The end of the text: the offset ["+0000"], after six digits of
    microseconds or none. *)
Definition fraction_and_offset (s : string) : option Z :=
  if s =? "+0000" then Some 0%Z
  else
    and_then (expect "." s) (fun s =>
    and_then (read_digits 6 0 s) (fun '(us, s) =>
    if s =? "+0000" then Some us else None)).

(** The datetime that the parser returns for a text
    ["YYYY-MM-DDTHH:MM:SS+0000"] or ["YYYY-MM-DDTHH:MM:SS.ffffff+0000"]
    whose fields pass the constructor's checks; [None] for a text that
    is outside this module. *)
Definition extended_utc (s : string) : option t :=
  and_then (read_digits 4 0 s) (fun '(y, s) =>
  and_then (expect "-" s) (fun s =>
  and_then (read_digits 2 0 s) (fun '(m, s) =>
  and_then (expect "-" s) (fun s =>
  and_then (read_digits 2 0 s) (fun '(dd, s) =>
  and_then (expect "T" s) (fun s =>
  and_then (read_digits 2 0 s) (fun '(hh, s) =>
  and_then (expect ":" s) (fun s =>
  and_then (read_digits 2 0 s) (fun '(mm, s) =>
  and_then (expect ":" s) (fun s =>
  and_then (read_digits 2 0 s) (fun '(ss, s) =>
  and_then (fraction_and_offset s) (fun us =>
  let d := mk y m dd hh mm ss us (Some 0%Z) in
  if valid d then Some d else None)))))))))))).

(** The runtime of CPython 3.11 and later.  [other_texts] is the parser
    on every other text, [convert] is [datetime.fromtimestamp]. *)
Definition cpython_3_11 (other_texts : string -> result t)
    (convert : Q -> result t) : Runtime := {|
  datetime := t;
  fromisoformat := fun s =>
    match extended_utc s with
    | Some d => OK d
    | None => other_texts s
    end;
  fromtimestamp := convert
|}.

End py_datetime.

(** A runtime that knows no other timestamp text and converts no epoch
    number, and a document for it. *)
Definition only_utc_texts : Runtime :=
  py_datetime.cpython_3_11 (fun _ => Raise ValueError)
                           (fun _ => Raise OverflowError).

Definition document_utc_composite : list (string * pyval) :=
  [ ("fear_and_greed",
     PDict [ ("score", PFloat (723 # 10));
             ("rating", PStr "greed");
             ("timestamp", PStr "2024-12-02T23:59:55+00:00") ]);
    ("fear_and_greed_historical", PDict [("data", PList three_points)]);
    ("junk_bond_demand",
     PDict [ ("score", PFloat (612 # 10)); ("rating", PStr "greed") ]) ].

(** * Properties *)

(** ** Comparisons *)

Lemma Qltb_true (x y : Q) : x < y -> Qltb x y = true.
Proof.
  intros H. unfold Qltb.
  destruct (Qle_bool y x) eqn:E; [|reflexivity].
  apply Qle_bool_iff in E. lra.
Qed.

Lemma Qltb_false (x y : Q) : y <= x -> Qltb x y = false.
Proof.
  intros H. unfold Qltb.
  apply Qle_bool_iff in H. now rewrite H.
Qed.

Lemma py_lt_below (v : pyval) (s : Q) (n : Z) :
  num_value v = Some s -> s < inject_Z n -> py_lt v n = OK true.
Proof.
  intros Hv H. unfold py_lt. rewrite Hv. now rewrite Qltb_true.
Qed.

Lemma py_lt_above (v : pyval) (s : Q) (n : Z) :
  num_value v = Some s -> inject_Z n <= s -> py_lt v n = OK false.
Proof.
  intros Hv H. unfold py_lt. rewrite Hv. now rewrite Qltb_false.
Qed.

(** Evaluates a chain of [if score < n: ... elif ...] at a score whose
    position relative to every threshold is among the hypotheses. *)
Ltac walk_chain Hv :=
  cbv zeta;
  repeat match goal with
    | |- context [py_lt ?v ?n] =>
        first [ rewrite (py_lt_below v _ n Hv) by (unfold inject_Z; lra)
              | rewrite (py_lt_above v _ n Hv) by (unfold inject_Z; lra) ]
    end;
  simpl.

(** ** Trading signal *)

Lemma spec_signal_band_total (s : Q) : exists b, spec_signal_band s b.
Proof.
  destruct (Qlt_le_dec s 20); [eexists; apply in_strong_buy; assumption|].
  destruct (Qlt_le_dec s 40); [eexists; apply in_buy; assumption|].
  destruct (Qlt_le_dec s 60); [eexists; apply in_hold; assumption|].
  destruct (Qlt_le_dec s 80); [eexists; apply in_sell; assumption|].
  eexists; apply in_strong_sell; assumption.
Qed.

Lemma spec_signal_band_unique (s : Q) (b b' : Signal) :
  spec_signal_band s b -> spec_signal_band s b' -> b = b'.
Proof.
  intros H H'. destruct H; inversion H'; subst; try reflexivity; lra.
Qed.

Section TradingSignal.
Context {RT : Runtime}.

Lemma api_signal_in_band (fgi : CNNFearAndGreedIndex.t) (s : Q) (b : Signal) :
  num_value (CNNFearAndGreedIndex.score fgi) = Some s ->
  spec_signal_band s b ->
  api_server.get_trading_signal fgi
  = OK (api_signal_name b, signal_recommendation b).
Proof.
  intros Hv Hb. unfold api_server.get_trading_signal.
  destruct Hb; walk_chain Hv; reflexivity.
Qed.

Lemma cli_signal_in_band (fgi : CNNFearAndGreedIndex.t) (s : Q) (b : Signal) :
  num_value (CNNFearAndGreedIndex.score fgi) = Some s ->
  spec_signal_band s b ->
  exists view,
    fgi_cli.signal fgi = OK view /\
    fgi_cli.signal_text view = cli_signal_name b /\
    fgi_cli.recommendation view = signal_recommendation b.
Proof.
  intros Hv Hb. unfold fgi_cli.signal.
  destruct Hb; walk_chain Hv; eexists; repeat split; reflexivity.
Qed.

Lemma tool_signal_in_band (fgi : CNNFearAndGreedIndex.t) (s : Q) (b : Signal) :
  num_value (CNNFearAndGreedIndex.score fgi) = Some s ->
  spec_signal_band s b ->
  fgi_mcp_server.get_trading_signal fgi
  = OK (cli_signal_name b, tool_recommendation b).
Proof.
  intros Hv Hb. unfold fgi_mcp_server.get_trading_signal.
  destruct Hb; walk_chain Hv; reflexivity.
Qed.

(** C1.  For every numeric score [s], the trading signal is decided by
    the five bands [s < 20], [20 <= s < 40], [40 <= s < 60],
    [60 <= s < 80], [80 <= s]: the score lies in exactly one band, the
    REST adapter answers that band's name with its fixed recommendation,
    the terminal view shows the same band (spelt with a space) with the
    same recommendation, and the tool view the same band with its own
    fixed recommendation.  A score equal to 20 is in BUY and a score
    equal to 40 is in HOLD. *)
Theorem trading_signal_five_bands (fgi : CNNFearAndGreedIndex.t) (s : Q) :
  num_value (CNNFearAndGreedIndex.score fgi) = Some s ->
  exists b : Signal,
    spec_signal_band s b /\
    (forall b', spec_signal_band s b' -> b' = b) /\
    api_server.get_trading_signal fgi
    = OK (api_signal_name b, signal_recommendation b) /\
    (exists view,
        fgi_cli.signal fgi = OK view /\
        fgi_cli.signal_text view = cli_signal_name b /\
        fgi_cli.recommendation view = signal_recommendation b) /\
    fgi_mcp_server.get_trading_signal fgi
    = OK (cli_signal_name b, tool_recommendation b) /\
    (s == 20 -> b = BUY) /\
    (s == 40 -> b = HOLD).
Proof.
  intros Hv. destruct (spec_signal_band_total s) as [b Hb].
  exists b. split; [exact Hb|]. split.
  { intros b' Hb'. exact (spec_signal_band_unique s b' b Hb' Hb). }
  split; [exact (api_signal_in_band fgi s b Hv Hb)|].
  split; [exact (cli_signal_in_band fgi s b Hv Hb)|].
  split; [exact (tool_signal_in_band fgi s b Hv Hb)|].
  split; intros E.
  - apply (spec_signal_band_unique s b BUY Hb). apply in_buy; lra.
  - apply (spec_signal_band_unique s b HOLD Hb). apply in_hold; lra.
Qed.

End TradingSignal.

(** ** Severity banding *)

Lemma spec_severity_band_total (s : Q) : exists b, spec_severity_band s b.
Proof.
  destruct (Qlt_le_dec s 25); [eexists; apply in_extreme_fear; assumption|].
  destruct (Qlt_le_dec s 45); [eexists; apply in_fear; assumption|].
  destruct (Qlt_le_dec s 55); [eexists; apply in_neutral; assumption|].
  destruct (Qlt_le_dec s 75); [eexists; apply in_greed; assumption|].
  eexists; apply in_extreme_greed; assumption.
Qed.

Lemma spec_severity_band_unique (s : Q) (b b' : Severity) :
  spec_severity_band s b -> spec_severity_band s b' -> b = b'.
Proof.
  intros H H'. destruct H; inversion H'; subst; try reflexivity; lra.
Qed.

Section Severity.
Context {RT : Runtime}.

Lemma banding_functions_in_band (v : pyval) (s : Q) (b : Severity) :
  num_value v = Some s ->
  spec_severity_band s b ->
  fgi_cli.get_color_for_score v = OK (cli_color b) /\
  fgi_cli.get_emoji_for_score v = OK (cli_emoji b) /\
  app.get_color_for_score v = OK (dashboard_color b) /\
  CNNFearAndGreedIndex.bar_color v = OK (chart_color b).
Proof.
  intros Hv Hb.
  unfold fgi_cli.get_color_for_score, fgi_cli.get_emoji_for_score,
    app.get_color_for_score, CNNFearAndGreedIndex.bar_color.
  destruct Hb; walk_chain Hv; repeat split; reflexivity.
Qed.

(** The bar chart colours one bar per indicator, each by its own band. *)
Lemma chart_colors_by_band (fgi : CNNFearAndGreedIndex.t)
  (bands : list Severity) :
  Forall2 (fun ind b =>
             exists s, num_value (FearAndGreedIndicator.score ind) = Some s /\
                       spec_severity_band s b)
          (CNNFearAndGreedIndex.all_indicators fgi) bands ->
  CNNFearAndGreedIndex.plot_all_indicators_colors fgi
  = OK (map chart_color bands).
Proof.
  unfold CNNFearAndGreedIndex.plot_all_indicators_colors.
  generalize (CNNFearAndGreedIndex.all_indicators fgi).
  intros inds H. induction H as [|ind b inds bands [s [Hv Hb]] _ IH]; simpl.
  - reflexivity.
  - destruct (banding_functions_in_band _ s b Hv Hb) as (_ & _ & _ & Hc).
    rewrite Hc. simpl. rewrite IH. reflexivity.
Qed.

(** C2.  For every numeric score [s], severity is decided by the five
    bands [s < 25], [25 <= s < 45], [45 <= s < 55], [55 <= s < 75],
    [75 <= s]: the score lies in exactly one of them, and the terminal
    colour, the terminal emoji, the dashboard colour and the bar-chart
    colour are all the ones of that band; the boundaries differ from
    those of the trading signal (22 is extreme fear but a BUY). *)
Theorem severity_five_bands (v : pyval) (s : Q) :
  num_value v = Some s ->
  exists b : Severity,
    spec_severity_band s b /\
    (forall b', spec_severity_band s b' -> b' = b) /\
    fgi_cli.get_color_for_score v = OK (cli_color b) /\
    fgi_cli.get_emoji_for_score v = OK (cli_emoji b) /\
    app.get_color_for_score v = OK (dashboard_color b) /\
    CNNFearAndGreedIndex.bar_color v = OK (chart_color b) /\
    (spec_severity_band 22 extreme_fear /\ spec_signal_band 22 BUY).
Proof.
  intros Hv. destruct (spec_severity_band_total s) as [b Hb].
  exists b. split; [exact Hb|]. split.
  { intros b' Hb'. exact (spec_severity_band_unique s b' b Hb' Hb). }
  destruct (banding_functions_in_band v s b Hv Hb) as (H1 & H2 & H3 & H4).
  repeat split; try assumption.
  - apply in_extreme_fear. lra.
  - apply in_buy; lra.
Qed.

End Severity.

(** ** Dicts *)

Lemma dict_get_find (items : list (string * pyval)) (key : string) (d : pyval) :
  dict_get items key d
  = match dict_find items key with Some v => v | None => d end.
Proof.
  induction items as [|[k v] rest IH]; simpl; [reflexivity|].
  destruct (k =? key); [reflexivity|exact IH].
Qed.

Lemma dict_find_absent (items : list (string * pyval)) (key : string) :
  ~ In key (map fst items) <-> dict_find items key = None.
Proof.
  induction items as [|[k v] rest IH]; simpl.
  - tauto.
  - destruct (String.eqb_spec k key) as [E|N].
    + split; [intros H; exfalso; apply H; now left|discriminate].
    + rewrite <- IH. tauto.
Qed.

Lemma dict_find_drop_key (items : list (string * pyval)) (key k : string) :
  dict_find (drop_key key items) k
  = if key =? k then None else dict_find items k.
Proof.
  induction items as [|[k0 v] rest IH]; simpl.
  - now destruct (key =? k).
  - destruct (String.eqb_spec k0 key) as [E|N].
    + subst k0. rewrite IH. now destruct (key =? k).
    + simpl. rewrite IH.
      destruct (String.eqb_spec k0 k) as [E'|N']; [|reflexivity].
      subst k0. destruct (String.eqb_spec key k); [congruence|reflexivity].
Qed.

Lemma dict_find_update_key (items : list (string * pyval)) (key k : string)
  (f : pyval -> pyval) :
  dict_find (update_key key f items) k
  = if key =? k then option_map f (dict_find items k) else dict_find items k.
Proof.
  induction items as [|[k0 v] rest IH]; simpl.
  - now destruct (key =? k).
  - destruct (String.eqb_spec k0 k) as [E|N].
    + subst k0. rewrite (String.eqb_sym k key). now destruct (key =? k).
    + exact IH.
Qed.

(** A dict is looked up by key: the order of its items does not matter. *)
Lemma dict_find_permutation (items items' : list (string * pyval)) (key : string) :
  NoDup (map fst items) -> Permutation items items' ->
  dict_find items key = dict_find items' key.
Proof.
  intros Hnd Hp. induction Hp as [|[k v] l l' Hp IH|[k1 v1] [k2 v2] l|l l' l'' H1 IH1 H2 IH2].
  - reflexivity.
  - simpl. inversion Hnd; subst. now rewrite IH.
  - simpl. simpl in Hnd. inversion Hnd as [|? ? Hn1 Hnd']; subst.
    destruct (String.eqb_spec k1 key) as [E1|N1];
      destruct (String.eqb_spec k2 key) as [E2|N2]; try reflexivity.
    exfalso. apply Hn1. left. congruence.
  - rewrite IH1 by assumption. apply IH2.
    eapply Permutation_NoDup; [|exact Hnd]. now apply Permutation_map.
Qed.

(** ** The indicator constructor *)

Lemma bind_OK {A B : Type} (r : result A) (k : A -> result B) (b : B) :
  bind r k = OK b -> exists a, r = OK a /\ k a = OK b.
Proof.
  destruct r as [a|e]; simpl; [|discriminate]. intros H. now exists a.
Qed.

Lemma succeeds_bind {A B : Type} (r : result A) (k : A -> result B) :
  succeeds (bind r k)
  = match r with OK a => succeeds (k a) | Raise _ => false end.
Proof. now destruct r. Qed.

Lemma succeeds_OK {A : Type} (r : result A) :
  succeeds r = true <-> exists a, r = OK a.
Proof.
  destruct r as [a|e]; simpl; split; intros H; try discriminate.
  - now exists a.
  - reflexivity.
  - destruct H as [a H]. discriminate.
Qed.

Section Indicator.
Context {RT : Runtime}.

Lemma indicator_accepts (name : string) (data : pyval) :
  succeeds (FearAndGreedIndicator.__init__ name data) = indicator_ok data.
Proof.
  unfold FearAndGreedIndicator.__init__, indicator_ok.
  destruct (truthy data) eqn:T; [|reflexivity]. simpl.
  unfold FearAndGreedIndicator._load_from_data.
  destruct data; try reflexivity. simpl.
  unfold indicator_timestamp_ok, py_truediv.
  destruct (truthy (dict_get items "timestamp" PNone)); [|reflexivity]. simpl.
  destruct (num_value (dict_get items "timestamp" PNone)); [|reflexivity]. simpl.
  now destruct (fromtimestamp (q / inject_Z 1000)).
Qed.

(** A missing or falsy sub-object gives the placeholder. *)
Lemma indicator_of_nothing (name : string) (data : pyval) :
  truthy data = false ->
  FearAndGreedIndicator.__init__ name data
  = OK (FearAndGreedIndicator.blank name).
Proof.
  intros T. unfold FearAndGreedIndicator.__init__. now rewrite T.
Qed.

(** The fields of a constructed indicator. *)
Lemma indicator_fields (name : string) (data : pyval)
  (ind : FearAndGreedIndicator.t) :
  FearAndGreedIndicator.__init__ name data = OK ind ->
  FearAndGreedIndicator.name ind = name /\
  (field_missing data "score" ->
   FearAndGreedIndicator.score ind = PFloat 0) /\
  (field_missing data "rating" ->
   FearAndGreedIndicator.rating ind = PStr "N/A") /\
  (field_missing data "timestamp" ->
   FearAndGreedIndicator.timestamp ind = None) /\
  (field_missing data "data" ->
   FearAndGreedIndicator.historical_data ind = PList []).
Proof.
  unfold FearAndGreedIndicator.__init__.
  destruct (truthy data) eqn:T.
  - unfold FearAndGreedIndicator._load_from_data. intros H.
    apply bind_OK in H. destruct H as (get & Hget & H).
    destruct data; try discriminate. simpl in Hget.
    injection Hget as <-.
    apply bind_OK in H. destruct H as (ts & Hts & H).
    injection H as <-. simpl. unfold field_missing.
    split; [reflexivity|].
    repeat split; intros M; rewrite ?dict_get_find, ?M; try reflexivity.
    rewrite dict_get_find, M in Hts. simpl in Hts. congruence.
  - intros H. injection H as <-. simpl. tauto.
Qed.

End Indicator.

(** ** The model builder *)

Section Builder.
Context {RT : Runtime}.

Lemma attr_get_OK (v : pyval) (get : string -> pyval -> pyval) :
  attr_get v = OK get -> exists items, v = PDict items /\ get = dict_get items.
Proof.
  destruct v; simpl; try discriminate. intros H. injection H as <-.
  now exists items.
Qed.

Lemma attr_get_not_mapping (v : pyval) :
  (forall items, v <> PDict items) -> attr_get v = Raise AttributeError.
Proof.
  intros H. destruct v; try reflexivity. now destruct (H items).
Qed.

Lemma timestamp_accepts (t : pyval) :
  succeeds (CNNFearAndGreedIndex.load_timestamp t) = composite_timestamp_ok t.
Proof.
  unfold CNNFearAndGreedIndex.load_timestamp, composite_timestamp_ok.
  destruct (truthy t); [|reflexivity]. simpl.
  destruct t; try reflexivity.
  now destruct (fromisoformat (py_replace s "+00:00" "+0000")).
Qed.

(** What a successful build tells about the document and the snapshot. *)
Lemma build_OK (data : pyval) (fgi : CNNFearAndGreedIndex.t) :
  CNNFearAndGreedIndex.build data = OK fgi ->
  exists items fg hist,
    data = PDict items /\
    dict_get items "fear_and_greed" (PDict []) = PDict fg /\
    dict_get items "fear_and_greed_historical" (PDict []) = PDict hist /\
    CNNFearAndGreedIndex.load_timestamp (dict_get fg "timestamp" PNone)
    = OK (CNNFearAndGreedIndex.timestamp fgi) /\
    CNNFearAndGreedIndex.score fgi = dict_get fg "score" (PFloat 0) /\
    CNNFearAndGreedIndex.rating fgi = dict_get fg "rating" (PStr "N/A") /\
    CNNFearAndGreedIndex.previous_close fgi
    = dict_get fg "previous_close" (PFloat 0) /\
    CNNFearAndGreedIndex.previous_1_week fgi
    = dict_get fg "previous_1_week" (PFloat 0) /\
    CNNFearAndGreedIndex.previous_1_month fgi
    = dict_get fg "previous_1_month" (PFloat 0) /\
    CNNFearAndGreedIndex.previous_1_year fgi
    = dict_get fg "previous_1_year" (PFloat 0) /\
    CNNFearAndGreedIndex.historical_data fgi
    = dict_get hist "data" (PList []) /\
    Forall2 (fun entry ind =>
               FearAndGreedIndicator.__init__ (snd entry)
                 (dict_get items (fst entry) PNone) = OK ind)
            CNNFearAndGreedIndex._INDICATOR_MAP
            (CNNFearAndGreedIndex.all_indicators fgi).
Proof.
  unfold CNNFearAndGreedIndex.build. intros H.
  apply bind_OK in H. destruct H as (get & Hget & H).
  apply attr_get_OK in Hget. destruct Hget as (items & -> & ->).
  apply bind_OK in H. destruct H as (fg_get & Hfg & H).
  apply attr_get_OK in Hfg. destruct Hfg as (fg & Hfg & ->).
  apply bind_OK in H. destruct H as (ts & Hts & H).
  apply bind_OK in H. destruct H as (hist_get & Hh & H).
  apply attr_get_OK in Hh. destruct Hh as (hist & Hh & ->).
  apply bind_OK in H. destruct H as (i1 & H1 & H).
  apply bind_OK in H. destruct H as (i2 & H2 & H).
  apply bind_OK in H. destruct H as (i3 & H3 & H).
  apply bind_OK in H. destruct H as (i4 & H4 & H).
  apply bind_OK in H. destruct H as (i5 & H5 & H).
  apply bind_OK in H. destruct H as (i6 & H6 & H).
  apply bind_OK in H. destruct H as (i7 & H7 & H).
  injection H as <-.
  exists items, fg, hist. simpl.
  repeat (split; [first [reflexivity | assumption]|]).
  unfold CNNFearAndGreedIndex.all_indicators,
    CNNFearAndGreedIndex._INDICATOR_MAP. simpl.
  repeat (constructor; [assumption|]). constructor.
Qed.

(** The builder returns exactly on the documents of [well_formed]. *)
Lemma build_accepts (items : list (string * pyval)) :
  succeeds (CNNFearAndGreedIndex.build (PDict items)) = well_formed items.
Proof.
  unfold CNNFearAndGreedIndex.build, well_formed, rest_ok, composite_ok,
    historical_ok.
  simpl attr_get. simpl bind.
  destruct (dict_get items "fear_and_greed" (PDict [])); try reflexivity.
  simpl attr_get. simpl bind.
  rewrite succeeds_bind, <- timestamp_accepts.
  destruct (CNNFearAndGreedIndex.load_timestamp _); [|reflexivity].
  simpl succeeds at 2.
  destruct (dict_get items "fear_and_greed_historical" (PDict []));
    try reflexivity.
  simpl attr_get. simpl bind. simpl indicator_keys. simpl forallb.
  rewrite !andb_true_l.
  repeat (rewrite succeeds_bind;
          match goal with
          | |- context [FearAndGreedIndicator.__init__ ?n ?d] =>
              rewrite <- (indicator_accepts n d);
              destruct (FearAndGreedIndicator.__init__ n d); [|reflexivity]
          end;
          cbn [succeeds andb]).
  reflexivity.
Qed.

Lemma build_permutation (items items' : list (string * pyval)) :
  NoDup (map fst items) -> Permutation items items' ->
  CNNFearAndGreedIndex.build (PDict items')
  = CNNFearAndGreedIndex.build (PDict items).
Proof.
  intros Hnd Hp. unfold CNNFearAndGreedIndex.build.
  simpl attr_get. simpl bind.
  rewrite !(dict_get_find items'), !(dict_get_find items).
  rewrite <- !(dict_find_permutation items items' _ Hnd Hp).
  reflexivity.
Qed.

End Builder.

(** ** Missing entries and fields *)

Lemma dict_get_drop_key (P : pyval -> bool) (items : list (string * pyval))
  (key k : string) (d : pyval) :
  P d = true ->
  P (dict_get items k d) = true ->
  P (dict_get (drop_key key items) k d) = true.
Proof.
  intros Hd H. rewrite dict_get_find, dict_find_drop_key.
  rewrite dict_get_find in H. now destruct (key =? k).
Qed.

Lemma dict_get_update_key (P : pyval -> bool) (f : pyval -> pyval)
  (items : list (string * pyval)) (key k : string) (d : pyval) :
  (forall v, P v = true -> P (f v) = true) ->
  P (dict_get items k d) = true ->
  P (dict_get (update_key key f items) k d) = true.
Proof.
  intros Hf H. rewrite dict_get_find, dict_find_update_key.
  rewrite dict_get_find in H.
  destruct (key =? k); [|exact H].
  destruct (dict_find items k); simpl; [now apply Hf|exact H].
Qed.

Section MissingFields.
Context {RT : Runtime}.

Lemma composite_ok_without_field (field : string) (v : pyval) :
  composite_ok v = true -> composite_ok (without_field field v) = true.
Proof.
  destruct v; simpl; try discriminate.
  now apply (dict_get_drop_key composite_timestamp_ok).
Qed.

Lemma historical_ok_without_field (field : string) (v : pyval) :
  historical_ok v = true -> historical_ok (without_field field v) = true.
Proof. now destruct v. Qed.

Lemma indicator_ok_without_field (field : string) (v : pyval) :
  indicator_ok v = true -> indicator_ok (without_field field v) = true.
Proof.
  destruct v; simpl; try (intros H; exact H).
  unfold indicator_ok. intros H. apply orb_true_iff in H.
  apply orb_true_iff. destruct H as [H|H].
  - left. destruct items; [reflexivity|discriminate].
  - right. now apply (dict_get_drop_key indicator_timestamp_ok).
Qed.

Lemma well_formed_drop_key (key : string) (items : list (string * pyval)) :
  well_formed items = true -> well_formed (drop_key key items) = true.
Proof.
  unfold well_formed, rest_ok. intros H.
  apply andb_true_iff in H. destruct H as [Hc H].
  apply andb_true_iff in H. destruct H as [Hh Hi].
  rewrite forallb_forall in Hi.
  apply andb_true_iff. split; [|apply andb_true_iff; split].
  - now apply (dict_get_drop_key composite_ok).
  - now apply (dict_get_drop_key historical_ok).
  - apply forallb_forall. intros k Hk.
    apply (dict_get_drop_key indicator_ok); [reflexivity|now apply Hi].
Qed.

Lemma well_formed_update_key (key field : string)
  (items : list (string * pyval)) :
  well_formed items = true ->
  well_formed (update_key key (without_field field) items) = true.
Proof.
  unfold well_formed, rest_ok. intros H.
  apply andb_true_iff in H. destruct H as [Hc H].
  apply andb_true_iff in H. destruct H as [Hh Hi].
  rewrite forallb_forall in Hi.
  apply andb_true_iff. split; [|apply andb_true_iff; split].
  - apply (dict_get_update_key composite_ok); [|exact Hc].
    apply composite_ok_without_field.
  - apply (dict_get_update_key historical_ok); [|exact Hh].
    apply historical_ok_without_field.
  - apply forallb_forall. intros k Hk.
    apply (dict_get_update_key indicator_ok); [|now apply Hi].
    apply indicator_ok_without_field.
Qed.

Lemma build_returns_iff (items : list (string * pyval)) :
  (exists fgi, CNNFearAndGreedIndex.build (PDict items) = OK fgi)
  <-> well_formed items = true.
Proof. rewrite <- build_accepts. symmetry. apply succeeds_OK. Qed.

(** C3 (as amended).  The builder fails with [AttributeError] on a raw
    document that is not a mapping.  On a mapping it returns a snapshot
    exactly when the document is well formed: the composite and the
    historical sub-objects, when present, are mappings, the composite
    timestamp, when truthy, is a text the runtime parses once
    normalised, and every indicator sub-object, when truthy, is a
    mapping whose timestamp, when truthy, is a number the runtime
    converts.  A missing entry or field is never a cause of failure:
    removing an entry of the document, or a field of one of its
    sub-objects, from an accepted document leaves it accepted. *)
Theorem builder_failure_policy :
  (forall data : pyval,
      (forall items, data <> PDict items) ->
      CNNFearAndGreedIndex.build data = Raise AttributeError) /\
  (forall items : list (string * pyval),
      (exists fgi, CNNFearAndGreedIndex.build (PDict items) = OK fgi)
      <-> well_formed items = true) /\
  (forall (data : pyval) (fgi : CNNFearAndGreedIndex.t),
      CNNFearAndGreedIndex.build data = OK fgi ->
      forall key field : string,
        (exists fgi',
            CNNFearAndGreedIndex.build (without_field key data) = OK fgi') /\
        (exists fgi',
            CNNFearAndGreedIndex.build (without_subfield key field data)
            = OK fgi')).
Proof.
  split; [|split].
  - intros data H. unfold CNNFearAndGreedIndex.build.
    now rewrite (attr_get_not_mapping data H).
  - exact build_returns_iff.
  - intros data fgi H key field.
    destruct (build_OK data fgi H) as (items & _ & _ & -> & _).
    assert (W : well_formed items = true).
    { apply build_returns_iff. now exists fgi. }
    simpl. split; apply build_returns_iff.
    + now apply well_formed_drop_key.
    + now apply well_formed_update_key.
Qed.

End MissingFields.

(** ** The seven indicators *)

Lemma Forall2_map_eq {A B C : Type} (R : A -> B -> Prop) (f : B -> C) (g : A -> C)
  (l : list A) (l' : list B) :
  (forall a b, R a b -> f b = g a) ->
  Forall2 R l l' -> map f l' = map g l.
Proof.
  intros H F. induction F as [|a b l l' Hab _ IH]; simpl; [reflexivity|].
  now rewrite (H a b Hab), IH.
Qed.

Lemma Forall2_nth_error {A B : Type} (R : A -> B -> Prop)
  (l : list A) (l' : list B) (i : nat) (a : A) :
  Forall2 R l l' -> nth_error l i = Some a ->
  exists b, nth_error l' i = Some b /\ R a b.
Proof.
  intros F. revert i. induction F as [|a0 b0 l l' Hab _ IH]; intros i Hi.
  - destruct i; discriminate.
  - destruct i as [|i]; simpl in *.
    + injection Hi as <-. now exists b0.
    + now apply IH.
Qed.

Section SevenIndicators.
Context {RT : Runtime}.

Lemma built_names (data : pyval) (fgi : CNNFearAndGreedIndex.t) :
  CNNFearAndGreedIndex.build data = OK fgi ->
  map FearAndGreedIndicator.name (CNNFearAndGreedIndex.all_indicators fgi)
  = canonical_names.
Proof.
  intros H.
  destruct (build_OK data fgi H) as (items & fg & hist & _ & _ & _ & _ &
                                     _ & _ & _ & _ & _ & _ & _ & F).
  unfold canonical_names.
  apply (Forall2_map_eq _ _ _ _ _ (fun entry ind Hi =>
           proj1 (indicator_fields _ _ ind Hi)) F).
Qed.

Lemma built_placeholder (items : list (string * pyval))
  (fgi : CNNFearAndGreedIndex.t) (i : nat) (key : string) :
  CNNFearAndGreedIndex.build (PDict items) = OK fgi ->
  nth_error indicator_keys i = Some key ->
  ~ In key (map fst items) ->
  exists canonical,
    nth_error canonical_names i = Some canonical /\
    nth_error (CNNFearAndGreedIndex.all_indicators fgi) i
    = Some (FearAndGreedIndicator.blank canonical).
Proof.
  intros H Hk Habs.
  destruct (build_OK _ fgi H) as (items' & fg & hist & E & _ & _ & _ &
                                  _ & _ & _ & _ & _ & _ & _ & F).
  injection E as <-.
  unfold indicator_keys in Hk. unfold canonical_names.
  destruct (nth_error CNNFearAndGreedIndex._INDICATOR_MAP i) as [entry|] eqn:He.
  2:{ rewrite nth_error_map, He in Hk. discriminate. }
  rewrite nth_error_map, He in Hk. simpl in Hk. injection Hk as Hk.
  destruct (Forall2_nth_error _ _ _ i entry F He) as (ind & Hind & Hinit).
  exists (snd entry). split.
  - now rewrite nth_error_map, He.
  - rewrite Hind. f_equal.
    rewrite Hk, dict_get_find in Hinit.
    apply dict_find_absent in Habs. rewrite Habs in Hinit.
    rewrite indicator_of_nothing in Hinit by reflexivity. congruence.
Qed.

(** C4.  In every snapshot the builder returns, the indicator
    collection has length 7 and carries the seven canonical names in
    the canonical order; an indicator whose sub-object is missing from
    the document is the placeholder with its canonical name; and
    listing the entries of the document in another order gives the
    very same snapshot. *)
Theorem seven_indicators_in_canonical_order
  (data : pyval) (fgi : CNNFearAndGreedIndex.t) :
  CNNFearAndGreedIndex.build data = OK fgi ->
  List.length (CNNFearAndGreedIndex.all_indicators fgi) = 7%nat /\
  map FearAndGreedIndicator.name (CNNFearAndGreedIndex.all_indicators fgi)
  = [ "Junk Bond Demand"; "Market Volatility (VIX)"; "Put and Call Options";
      "Market Momentum (S&P 500)"; "Stock Price Strength";
      "Stock Price Breadth"; "Safe Haven Demand" ] /\
  (forall (items : list (string * pyval)) (i : nat) (key : string),
      data = PDict items ->
      nth_error indicator_keys i = Some key ->
      ~ In key (map fst items) ->
      exists canonical,
        nth_error canonical_names i = Some canonical /\
        nth_error (CNNFearAndGreedIndex.all_indicators fgi) i
        = Some (FearAndGreedIndicator.blank canonical)) /\
  (forall items items' : list (string * pyval),
      data = PDict items ->
      NoDup (map fst items) ->
      Permutation items items' ->
      CNNFearAndGreedIndex.build (PDict items') = OK fgi).
Proof.
  intros H. split; [reflexivity|]. split; [exact (built_names data fgi H)|].
  split.
  - intros items i key -> Hk Habs.
    exact (built_placeholder items fgi i key H Hk Habs).
  - intros items items' -> Hnd Hp.
    now rewrite (build_permutation items items' Hnd Hp).
Qed.

(** ** Defaults *)

Lemma build_without_composite (items : list (string * pyval)) :
  dict_find items "fear_and_greed" = None ->
  well_formed items = rest_ok items.
Proof.
  intros H. unfold well_formed. now rewrite dict_get_find, H.
Qed.

(** C5 (as amended).  For every raw document that is a mapping, lacks
    the ["fear_and_greed"] key and is otherwise well formed (its
    historical entry, if present, is a mapping and its indicator
    entries are acceptable), the builder returns a snapshot with score
    0.0, rating "N/A", the four previous scores 0.0, no timestamp and
    the seven indicators under their canonical names.  And in every
    snapshot the builder returns, a numeric field missing from the
    composite or from an indicator sub-object is 0.0 and a missing
    rating is "N/A". *)
Theorem defaults_for_missing_fields :
  (forall items : list (string * pyval),
      dict_find items "fear_and_greed" = None ->
      rest_ok items = true ->
      exists fgi,
        CNNFearAndGreedIndex.build (PDict items) = OK fgi /\
        CNNFearAndGreedIndex.score fgi = PFloat 0 /\
        CNNFearAndGreedIndex.rating fgi = PStr "N/A" /\
        CNNFearAndGreedIndex.previous_close fgi = PFloat 0 /\
        CNNFearAndGreedIndex.previous_1_week fgi = PFloat 0 /\
        CNNFearAndGreedIndex.previous_1_month fgi = PFloat 0 /\
        CNNFearAndGreedIndex.previous_1_year fgi = PFloat 0 /\
        CNNFearAndGreedIndex.timestamp fgi = None /\
        List.length (CNNFearAndGreedIndex.all_indicators fgi) = 7%nat /\
        map FearAndGreedIndicator.name (CNNFearAndGreedIndex.all_indicators fgi)
        = canonical_names) /\
  (forall (items : list (string * pyval)) (fgi : CNNFearAndGreedIndex.t),
      CNNFearAndGreedIndex.build (PDict items) = OK fgi ->
      let fg_data := dict_get items "fear_and_greed" (PDict []) in
      (field_missing fg_data "score" ->
       CNNFearAndGreedIndex.score fgi = PFloat 0) /\
      (field_missing fg_data "rating" ->
       CNNFearAndGreedIndex.rating fgi = PStr "N/A") /\
      (field_missing fg_data "previous_close" ->
       CNNFearAndGreedIndex.previous_close fgi = PFloat 0) /\
      (field_missing fg_data "previous_1_week" ->
       CNNFearAndGreedIndex.previous_1_week fgi = PFloat 0) /\
      (field_missing fg_data "previous_1_month" ->
       CNNFearAndGreedIndex.previous_1_month fgi = PFloat 0) /\
      (field_missing fg_data "previous_1_year" ->
       CNNFearAndGreedIndex.previous_1_year fgi = PFloat 0) /\
      (field_missing fg_data "timestamp" ->
       CNNFearAndGreedIndex.timestamp fgi = None) /\
      Forall2 (fun key ind =>
                 let data := dict_get items key PNone in
                 (field_missing data "score" ->
                  FearAndGreedIndicator.score ind = PFloat 0) /\
                 (field_missing data "rating" ->
                  FearAndGreedIndicator.rating ind = PStr "N/A"))
              indicator_keys (CNNFearAndGreedIndex.all_indicators fgi)).
Proof.
  split.
  - intros items Habs Hrest.
    assert (W : well_formed items = true)
      by now rewrite build_without_composite.
    apply build_returns_iff in W. destruct W as [fgi H].
    exists fgi. split; [exact H|].
    pose proof (built_names _ _ H) as Hn.
    destruct (build_OK _ fgi H) as (items' & fg & hist & E & Hfg & _ & Hts &
                                    H1 & H2 & H3 & H4 & H5 & H6 & _ & _).
    injection E as <-.
    rewrite dict_get_find, Habs in Hfg. injection Hfg as <-.
    unfold CNNFearAndGreedIndex.load_timestamp in Hts. simpl in *.
    injection Hts as <-.
    repeat split; assumption.
  - intros items fgi H fg_data.
    destruct (build_OK _ fgi H) as (items' & fg & hist & E & Hfg & _ & Hts &
                                    H1 & H2 & H3 & H4 & H5 & H6 & _ & F).
    injection E as <-. subst fg_data. rewrite Hfg. unfold field_missing.
    rewrite H1, H2, H3, H4, H5, H6.
    repeat split; try (intros M; now rewrite dict_get_find, M).
    + intros M. rewrite dict_get_find, M in Hts.
      unfold CNNFearAndGreedIndex.load_timestamp in Hts. simpl in Hts.
      congruence.
    + unfold indicator_keys. clear - F. induction F as [|entry ind l l' Hi _ IH]; simpl;
        constructor; [|exact IH].
      destruct (indicator_fields _ _ _ Hi) as (_ & Hs & Hr & _).
      now split.
Qed.

(** ** The historical series *)

(** C7 (as amended).  For every raw document that the builder accepts
    and whose ["fear_and_greed_historical"] entry carries a list of
    points under ["data"], the snapshot stores exactly that list and
    reading the historical series back returns it: the same points in
    the same order. *)
Theorem historical_series_round_trip
  (items hist : list (string * pyval)) (points : list pyval)
  (fgi : CNNFearAndGreedIndex.t) :
  CNNFearAndGreedIndex.build (PDict items) = OK fgi ->
  dict_find items "fear_and_greed_historical" = Some (PDict hist) ->
  dict_find hist "data" = Some (PList points) ->
  CNNFearAndGreedIndex.historical_data fgi = PList points /\
  CNNFearAndGreedIndex.get_historical_data fgi = PList points.
Proof.
  intros H Hh Hd.
  destruct (build_OK _ fgi H) as (items' & fg & hist' & E & _ & Hh' & _ &
                                  _ & _ & _ & _ & _ & _ & Hs & _).
  injection E as <-.
  rewrite dict_get_find, Hh in Hh'. injection Hh' as <-.
  rewrite dict_get_find, Hd in Hs.
  unfold CNNFearAndGreedIndex.get_historical_data. now split.
Qed.

End SevenIndicators.

(** ** Strings *)

Lemma startswith_spec (s pre : string) :
  startswith s pre = true <-> exists suf, s = pre ++ suf.
Proof.
  revert s. induction pre as [|a pre IH]; intros s; simpl.
  - split; [intros _; now exists s|reflexivity].
  - destruct s as [|b s]; simpl.
    + split; [discriminate|intros [suf H]; discriminate].
    + rewrite andb_true_iff, IH. split.
      * intros [E [suf ->]]. apply Ascii.eqb_eq in E. subst b. now exists suf.
      * intros [suf H]. injection H as -> ->. split.
        -- apply Ascii.eqb_refl.
        -- now exists suf.
Qed.

Lemma py_in_spec (needle hay : string) :
  py_in needle hay = true <-> is_substring needle hay.
Proof.
  unfold is_substring. induction hay as [|c hay IH].
  - simpl. rewrite orb_false_r, startswith_spec. split.
    + intros [suf H]. now exists EmptyString, suf.
    + intros (pre & suf & H). destruct pre; [now exists suf|discriminate].
  - cbn [py_in]. rewrite orb_true_iff, IH, startswith_spec. split.
    + intros [[suf H]|(pre & suf & H)].
      * now exists EmptyString, suf.
      * exists (String c pre), suf. simpl. now rewrite H.
    + intros (pre & suf & H). destruct pre as [|c' pre]; simpl in H.
      * left. now exists suf.
      * right. injection H as _ H. now exists pre, suf.
Qed.

(** Replacing one character by another is a character-wise map. *)
Lemma replace_one_char (a b : ascii) (s : string) :
  py_replace s (String a EmptyString) (String b EmptyString)
  = (fix go (s : string) : string :=
       match s with
       | EmptyString => EmptyString
       | String c rest => String (if (a =? c)%char then b else c) (go rest)
       end) s.
Proof.
  unfold py_replace. induction s as [|c s IH]; [reflexivity|].
  cbn [replace_from startswith String.length Nat.sub].
  destruct s as [|c' s'].
  - simpl. now destruct (a =? c)%char.
  - rewrite <- IH. destruct (a =? c)%char; reflexivity.
Qed.

Lemma normalize_char (c : ascii) :
  (let l := lower_char c in
   let u := if ("_" =? l)%char then " "%char else l in
   if ("-" =? u)%char then " "%char else u)
  = spec_normalize_char c.
Proof.
  destruct c as [[] [] [] [] [] [] [] []]; reflexivity.
Qed.

(** The query normalisation of [get_indicator] is [spec_normalize]. *)
Lemma normalize_query (name : string) :
  py_replace (py_replace (py_lower name) "_" " ") "-" " " = spec_normalize name.
Proof.
  rewrite !replace_one_char.
  induction name as [|c name IH]; [reflexivity|].
  cbn [py_lower spec_normalize]. rewrite <- IH, <- normalize_char.
  reflexivity.
Qed.

(** ** Fuzzy indicator lookup *)

Section FuzzyLookup.
Context {RT : Runtime}.

Lemma first_match_Some (q : string) (inds : list FearAndGreedIndicator.t)
  (ind : FearAndGreedIndicator.t) :
  api_server.first_match q inds = Some ind ->
  exists i,
    nth_error inds i = Some ind /\
    is_substring q (py_lower (FearAndGreedIndicator.name ind)) /\
    forall j earlier,
      (j < i)%nat -> nth_error inds j = Some earlier ->
      ~ is_substring q (py_lower (FearAndGreedIndicator.name earlier)).
Proof.
  induction inds as [|x inds IH]; simpl; [discriminate|].
  destruct (py_in q (py_lower (FearAndGreedIndicator.name x))) eqn:E.
  - intros H. injection H as <-. exists 0%nat.
    split; [reflexivity|]. split; [now apply py_in_spec|].
    intros j earlier Hj. lia.
  - intros H. destruct (IH H) as (i & Hi & Hm & Hbefore).
    exists (S i). split; [exact Hi|]. split; [exact Hm|].
    intros [|j] earlier Hj Hnth; simpl in Hnth.
    + injection Hnth as <-. rewrite <- py_in_spec. congruence.
    + apply (Hbefore j); [lia|exact Hnth].
Qed.

Lemma first_match_None (q : string) (inds : list FearAndGreedIndicator.t) :
  api_server.first_match q inds = None ->
  forall ind, In ind inds ->
    ~ is_substring q (py_lower (FearAndGreedIndicator.name ind)).
Proof.
  induction inds as [|x inds IH]; simpl; [tauto|].
  destruct (py_in q (py_lower (FearAndGreedIndicator.name x))) eqn:E;
    [discriminate|].
  intros H ind [<-|Hin].
  - rewrite <- py_in_spec. congruence.
  - now apply IH.
Qed.

(** Over the canonical names, "vix" first matches the second
    indicator and "nonexistent xyz" matches none. *)
Lemma first_match_canonical (inds : list FearAndGreedIndicator.t) :
  map FearAndGreedIndicator.name inds = canonical_names ->
  api_server.first_match "vix" inds = nth_error inds 1 /\
  api_server.first_match "nonexistent xyz" inds = None.
Proof.
  unfold canonical_names. simpl.
  destruct inds as [|i1 [|i2 [|i3 [|i4 [|i5 [|i6 [|i7 [|i8 inds]]]]]]]];
    try discriminate.
  intros H. injection H as H1 H2 H3 H4 H5 H6 H7.
  cbn [api_server.first_match nth_error].
  rewrite H1, H2, H3, H4, H5, H6, H7.
  split; vm_compute; reflexivity.
Qed.

(** C6.  [get_indicator] searches with the query lower-cased and its
    underscores and hyphens turned into spaces.  It answers with the
    first indicator, in the order of the seven, whose lower-cased name
    contains that text, and with a not-found reply (never an exception)
    when there is none.  On a built snapshot "vix" finds "Market
    Volatility (VIX)" and "nonexistent_xyz" is not found. *)
Theorem fuzzy_indicator_lookup (fgi : CNNFearAndGreedIndex.t) (name : string) :
  let q := spec_normalize name in
  let inds := CNNFearAndGreedIndex.all_indicators fgi in
  match api_server.get_indicator fgi name with
  | api_server.Found n s r t =>
      exists i ind,
        nth_error inds i = Some ind /\
        n = FearAndGreedIndicator.name ind /\
        s = FearAndGreedIndicator.score ind /\
        r = FearAndGreedIndicator.rating ind /\
        t = FearAndGreedIndicator.timestamp ind /\
        is_substring q (py_lower (FearAndGreedIndicator.name ind)) /\
        forall j earlier,
          (j < i)%nat -> nth_error inds j = Some earlier ->
          ~ is_substring q (py_lower (FearAndGreedIndicator.name earlier))
  | api_server.NotFound error =>
      error = "Indicator '" ++ name ++ "' not found" /\
      forall ind, In ind inds ->
        ~ is_substring q (py_lower (FearAndGreedIndicator.name ind))
  end /\
  (forall data,
      CNNFearAndGreedIndex.build data = OK fgi ->
      api_server.get_indicator fgi "vix"
      = api_server.Found "Market Volatility (VIX)"
          (FearAndGreedIndicator.score (CNNFearAndGreedIndex.market_volatility fgi))
          (FearAndGreedIndicator.rating (CNNFearAndGreedIndex.market_volatility fgi))
          (FearAndGreedIndicator.timestamp (CNNFearAndGreedIndex.market_volatility fgi)) /\
      api_server.get_indicator fgi "nonexistent_xyz"
      = api_server.NotFound "Indicator 'nonexistent_xyz' not found").
Proof.
  intros q inds. split.
  - unfold api_server.get_indicator. rewrite normalize_query. fold q. fold inds.
    destruct (api_server.first_match q inds) as [ind|] eqn:E.
    + destruct (first_match_Some q inds ind E) as (i & Hi & Hm & Hb).
      exists i, ind. repeat split; assumption.
    + split; [reflexivity|]. exact (first_match_None q inds E).
  - intros data H. pose proof (built_names data fgi H) as Hn.
    destruct (first_match_canonical _ Hn) as [Hvix Hnone].
    unfold api_server.get_indicator. rewrite !normalize_query.
    change (spec_normalize "vix") with "vix".
    change (spec_normalize "nonexistent_xyz") with "nonexistent xyz".
    rewrite Hvix, Hnone. cbn [nth_error CNNFearAndGreedIndex.all_indicators].
    split; [|reflexivity].
    f_equal.
    unfold canonical_names in Hn. simpl in Hn. now injection Hn.
Qed.

End FuzzyLookup.

(** ** The composite timestamp *)

(** An occurrence of "+00:00" cannot begin inside [p] and end inside a
    following "+00:00". *)
Lemma offset_not_straddling (c : ascii) (p : string) :
  startswith (String c p ++ "+00:00") "+00:00"
  = startswith (String c p) "+00:00".
Proof.
  destruct p as [|c2 [|c3 [|c4 [|c5 [|c6 p]]]]];
    cbn [startswith String.append];
    repeat match goal with
      | |- context [(?a =? ?b)%char] =>
          is_var b; destruct (a =? b)%char; cbn [andb]
      end;
    reflexivity.
Qed.

Lemma replace_offset_suffix (p : string) (k : nat) :
  (k <= String.length p)%nat ->
  replace_from "+00:00" "+0000" k (p ++ "+00:00")
  = replace_from "+00:00" "+0000" k p ++ "+0000".
Proof.
  revert k. induction p as [|c p IH]; intros k Hk.
  - simpl in Hk. replace k with 0%nat by lia. reflexivity.
  - destruct k as [|k].
    + change (String c p ++ "+00:00") with (String c (p ++ "+00:00")) at 1.
      cbn [replace_from].
      change (String c (p ++ "+00:00")) with (String c p ++ "+00:00").
      rewrite offset_not_straddling.
      destruct (startswith (String c p) "+00:00") eqn:E.
      * apply startswith_spec in E. destruct E as [suf E].
        simpl in E. injection E as _ E.
        rewrite IH by (rewrite E; simpl; lia). reflexivity.
      * rewrite IH by lia. reflexivity.
    + simpl in Hk. simpl. apply IH. lia.
Qed.

(** The text handed to the parser for a timestamp ending in "+00:00". *)
Lemma normalized_offset (p : string) :
  py_replace (p ++ "+00:00") "+00:00" "+0000"
  = py_replace p "+00:00" "+0000" ++ "+0000".
Proof. unfold py_replace. apply replace_offset_suffix. lia. Qed.

Section CompositeTimestamp.
Context {RT : Runtime}.

Lemma well_formed_with_timestamp (items fg : list (string * pyval))
  (s : string) (d : datetime) :
  dict_get items "fear_and_greed" (PDict []) = PDict fg ->
  dict_find fg "timestamp" = Some (PStr s) ->
  fromisoformat (py_replace s "+00:00" "+0000") = OK d ->
  rest_ok items = true ->
  well_formed items = true.
Proof.
  intros Hfg Hts Hparse Hrest. unfold well_formed.
  rewrite Hrest, andb_true_r, Hfg. simpl.
  rewrite dict_get_find, Hts. unfold composite_timestamp_ok.
  rewrite Hparse. apply orb_true_r.
Qed.

End CompositeTimestamp.

(** ** The fetch *)

Section Fetch.
Context {RT : Runtime}.

Lemma fetch_sends_one (net : network) :
  sent (snd (scrape_cnn._get_fear_greed_data net))
  = (sent net ++ [the_request])%list.
Proof.
  unfold scrape_cnn._get_fear_greed_data, requests_get.
  fold the_request.
  now destruct (server net (List.length (sent net)) the_request).
Qed.

Lemma init_after_fetch (net : network) :
  CNNFearAndGreedIndex.__init__ net
  = (d <- fst (scrape_cnn._get_fear_greed_data net) ;;
     CNNFearAndGreedIndex.build d,
     snd (scrape_cnn._get_fear_greed_data net)).
Proof.
  unfold CNNFearAndGreedIndex.__init__,
    CNNFearAndGreedIndex._load_fear_and_greed.
  now destruct (scrape_cnn._get_fear_greed_data net).
Qed.

(** C8 (as amended).  A fetch makes exactly one call of [requests.get],
    to the fixed URL with the fixed headers and [timeout=30], whatever
    the outcome: there is no second attempt.  A reported timeout or
    connection failure is raised as such; a response with a status in
    400..599 raises [HTTPError] carrying that status; a response with
    any other status has its body decoded as JSON.  When the fetch
    raises, the constructor raises the same exception and yields no
    snapshot, and it has made no further request. *)
Theorem fetch_single_attempt (net : network) :
  let fetched := scrape_cnn._get_fear_greed_data net in
  sent (snd fetched) = (sent net ++ [the_request])%list /\
  match server net (List.length (sent net)) the_request with
  | TimedOut => fst fetched = Raise Timeout
  | ConnectionFailed => fst fetched = Raise ConnectionError
  | Responded status json_body =>
      ((400 <= status < 600)%Z -> fst fetched = Raise (HTTPError status)) /\
      (~ (400 <= status < 600)%Z ->
       fst fetched = match json_body with
                     | Some document => OK document
                     | None => Raise JSONDecodeError
                     end)
  end /\
  (forall e : exn,
      fst fetched = Raise e ->
      CNNFearAndGreedIndex.__init__ net = (Raise e, snd fetched)) /\
  sent (snd (CNNFearAndGreedIndex.__init__ net))
  = (sent net ++ [the_request])%list.
Proof.
  intros fetched. split; [apply fetch_sends_one|]. split; [|split].
  - subst fetched. unfold scrape_cnn._get_fear_greed_data, requests_get.
    fold the_request.
    destruct (server net (List.length (sent net)) the_request)
      as [| |status json_body]; try reflexivity.
    simpl. unfold raise_for_status. simpl. split; intros Hs.
    + replace ((400 <=? status)%Z && (status <? 600)%Z) with true
        by (symmetry; apply andb_true_iff; split;
            [apply Z.leb_le|apply Z.ltb_lt]; lia).
      reflexivity.
    + replace ((400 <=? status)%Z && (status <? 600)%Z) with false.
      * reflexivity.
      * symmetry. apply andb_false_iff.
        destruct (Z.leb_spec 400 status); [|now left].
        destruct (Z.ltb_spec status 600); [lia|now right].
  - intros e He. rewrite init_after_fetch. fold fetched. now rewrite He.
  - rewrite init_after_fetch. simpl. apply fetch_sends_one.
Qed.

End Fetch.

(** ** History windows *)

Lemma slice_start_last (len : nat) (n : Z) :
  (0 < n)%Z ->
  slice_start len (- n) = (len - Nat.min (Z.to_nat n) len)%nat.
Proof.
  intros Hn. unfold slice_start.
  destruct (Z.ltb_spec (- n) 0); lia.
Qed.

Lemma lastn_is_suffix {A : Type} (k : nat) (l : list A) :
  (k <= List.length l)%nat ->
  List.length (lastn k l) = k /\ exists front, l = (front ++ lastn k l)%list.
Proof.
  intros Hk. unfold lastn. split.
  - rewrite length_skipn. lia.
  - exists (firstn (List.length l - k) l). now rewrite firstn_skipn.
Qed.

Section History.
Context {RT : Runtime}.

Lemma window_positive (fgi : CNNFearAndGreedIndex.t) (points : list pyval)
  (n : Z) :
  CNNFearAndGreedIndex.get_historical_data fgi = PList points ->
  (0 < n)%Z ->
  history_window fgi (PInt n)
  = OK (PList (lastn (Nat.min (Z.to_nat n) (List.length points)) points)).
Proof.
  intros H Hn. unfold history_window. simpl. rewrite H. simpl.
  now rewrite slice_start_last.
Qed.



End History.

(** * The model at work *)

Section Examples.
#[local] Existing Instance example_runtime.

(** ** Runs *)

Example build_example_document :
  CNNFearAndGreedIndex.build (PDict example_document) = OK example_snapshot.
Proof. vm_compute. reflexivity. Qed.

Example signal_at_19_9 :
  api_server.get_trading_signal (snapshot_scoring (PFloat (199 # 10)))
  = OK ("STRONG_BUY", "Extreme fear - potential buying opportunity").
Proof. reflexivity. Qed.

Example signal_at_39_9 :
  api_server.get_trading_signal (snapshot_scoring (PFloat (399 # 10)))
  = OK ("BUY", "Fear in market - consider accumulating").
Proof. reflexivity. Qed.

Example signal_at_40 :
  api_server.get_trading_signal (snapshot_scoring (PInt 40))
  = OK ("HOLD", "Neutral sentiment - maintain positions").
Proof. reflexivity. Qed.

Example signal_of_text :
  api_server.get_trading_signal (snapshot_scoring (PStr "72.3"))
  = Raise TypeError.
Proof. reflexivity. Qed.

Example end_to_end_72_3 :
  api_server.get_trading_signal example_snapshot
  = OK ("SELL", "Greed in market - consider taking profits") /\
  fgi_cli.get_color_for_score (CNNFearAndGreedIndex.score example_snapshot)
  = OK "green".
Proof. split; reflexivity. Qed.

Example replace_offset :
  py_replace "2024-12-02T23:59:55+00:00" "+00:00" "+0000"
  = "2024-12-02T23:59:55+0000".
Proof. reflexivity. Qed.

Example replace_does_not_overlap : py_replace "aaa" "aa" "b" = "ba".
Proof. reflexivity. Qed.

Example lookup_market_momentum :
  api_server.get_indicator example_snapshot "Market-Momentum"
  = api_server.Found "Market Momentum (S&P 500)" (PFloat 0) (PStr "N/A") None.
Proof. reflexivity. Qed.

Example slice_negative_limit :
  history_window example_snapshot (PInt (-1))
  = OK (PList (skipn 1 three_points)).
Proof. reflexivity. Qed.

Example rest_row_of_point :
  api_server.history_row_of (point 1733184000000 (723 # 10) "greed")
  = OK {| api_server.date := OfSeconds (1733184000000 / 1000);
          api_server.row_score := PFloat (723 # 10);
          api_server.row_rating := PStr "greed" |}.
Proof. reflexivity. Qed.

Example rest_row_of_bare_point :
  api_server.history_row_of (PDict [("x", PInt 0)]) = Raise KeyError.
Proof. reflexivity. Qed.

Example bad_indicator_timestamp :
  CNNFearAndGreedIndex.build
    (PDict [("junk_bond_demand", PDict [("timestamp", PStr "today")])])
  = Raise TypeError.
Proof. reflexivity. Qed.

Example bad_composite_timestamp :
  CNNFearAndGreedIndex.build
    (PDict [("fear_and_greed", PDict [("timestamp", PStr "yesterday")])])
  = Raise ValueError.
Proof. reflexivity. Qed.

(** ** Instances of the theorems *)

Lemma trading_signal_five_bands_witness :
  num_value (CNNFearAndGreedIndex.score (snapshot_scoring (PFloat 20)))
  = Some 20 /\
  api_server.get_trading_signal (snapshot_scoring (PFloat 20))
  = OK ("BUY", "Fear in market - consider accumulating").
Proof.
  split; [reflexivity|].
  destruct (trading_signal_five_bands (snapshot_scoring (PFloat 20)) 20 eq_refl)
    as (b & _ & _ & Hapi & _ & _ & H20 & _).
  rewrite (H20 (Qeq_refl 20)) in Hapi. exact Hapi.
Defined.

Lemma severity_five_bands_witness :
  num_value (PFloat (723 # 10)) = Some (723 # 10) /\
  fgi_cli.get_color_for_score (PFloat (723 # 10)) = OK "green" /\
  app.get_color_for_score (PFloat (723 # 10)) = OK "#32CD32".
Proof.
  split; [reflexivity|].
  destruct (severity_five_bands (PFloat (723 # 10)) (723 # 10) eq_refl)
    as (b & _ & Hu & Hcli & _ & Happ & _).
  assert (G : spec_severity_band (723 # 10) greed)
    by (apply in_greed; unfold Qle, Qlt; simpl; lia).
  rewrite <- (Hu greed G) in Hcli, Happ. split; assumption.
Defined.

(** C3, as stated, fails: a mapping whose composite sub-object is JSON
    [null] makes the builder raise, and what is raised for a document
    that is not a mapping is [AttributeError]. *)
Lemma builder_raises_on_null_composite :
  CNNFearAndGreedIndex.build (PDict document_null_composite)
  = Raise AttributeError /\
  CNNFearAndGreedIndex.build (PList []) = Raise AttributeError.
Proof. split; reflexivity. Qed.

Lemma builder_failure_policy_witness :
  (forall items, PList [] <> PDict items) /\
  well_formed example_document = true /\
  CNNFearAndGreedIndex.build (PList []) = Raise AttributeError /\
  (exists fgi,
      CNNFearAndGreedIndex.build (PDict example_document) = OK fgi) /\
  (exists fgi,
      CNNFearAndGreedIndex.build
        (without_subfield "fear_and_greed" "timestamp" (PDict example_document))
      = OK fgi).
Proof.
  assert (N : forall items, PList [] <> PDict items)
    by (intros items H; discriminate H).
  assert (W : well_formed example_document = true)
    by (vm_compute; reflexivity).
  destruct builder_failure_policy as (P1 & P2 & P3).
  split; [exact N|]. split; [exact W|].
  split; [exact (P1 (PList []) N)|].
  split; [exact (proj2 (P2 example_document) W)|].
  exact (proj2 (P3 (PDict example_document) example_snapshot
                   build_example_document "fear_and_greed" "timestamp")).
Defined.

Lemma seven_indicators_in_canonical_order_witness :
  CNNFearAndGreedIndex.build (PDict example_document) = OK example_snapshot /\
  List.length (CNNFearAndGreedIndex.all_indicators example_snapshot) = 7%nat /\
  nth_error (CNNFearAndGreedIndex.all_indicators example_snapshot) 2
  = Some (FearAndGreedIndicator.blank "Put and Call Options") /\
  CNNFearAndGreedIndex.build (PDict example_document_reordered)
  = OK example_snapshot.
Proof.
  assert (B : CNNFearAndGreedIndex.build (PDict example_document)
              = OK example_snapshot) by (vm_compute; reflexivity).
  destruct (seven_indicators_in_canonical_order _ _ B) as (L & _ & P & R).
  split; [exact B|]. split; [exact L|]. split.
  - destruct (P example_document 2%nat "put_call_options" eq_refl eq_refl)
      as (canonical & Hc & Hi).
    + simpl. intuition discriminate.
    + injection Hc as <-. exact Hi.
  - apply (R example_document example_document_reordered eq_refl).
    + simpl. repeat constructor; simpl; intuition discriminate.
    + apply Permutation_rev.
Defined.

(** C5, as stated, fails: this mapping lacks "fear_and_greed", and the
    builder raises on its historical entry. *)
Lemma builder_raises_without_composite :
  dict_find document_list_historical "fear_and_greed" = None /\
  CNNFearAndGreedIndex.build (PDict document_list_historical)
  = Raise AttributeError.
Proof. split; reflexivity. Qed.

Lemma defaults_for_missing_fields_witness :
  dict_find document_history_only "fear_and_greed" = None /\
  rest_ok document_history_only = true /\
  exists fgi,
    CNNFearAndGreedIndex.build (PDict document_history_only) = OK fgi /\
    CNNFearAndGreedIndex.score fgi = PFloat 0 /\
    CNNFearAndGreedIndex.rating fgi = PStr "N/A" /\
    CNNFearAndGreedIndex.timestamp fgi = None /\
    List.length (CNNFearAndGreedIndex.all_indicators fgi) = 7%nat.
Proof.
  split; [reflexivity|]. split; [vm_compute; reflexivity|].
  destruct (proj1 defaults_for_missing_fields document_history_only)
    as (fgi & B & S & R & _ & _ & _ & _ & T & L & _);
    [reflexivity|vm_compute; reflexivity|].
  exists fgi. repeat split; assumption.
Defined.

Lemma fuzzy_indicator_lookup_witness :
  CNNFearAndGreedIndex.build (PDict example_document) = OK example_snapshot /\
  api_server.get_indicator example_snapshot "vix"
  = api_server.Found "Market Volatility (VIX)" (PFloat 50) (PStr "neutral")
      (FearAndGreedIndicator.timestamp
         (CNNFearAndGreedIndex.market_volatility example_snapshot)) /\
  api_server.get_indicator example_snapshot "nonexistent_xyz"
  = api_server.NotFound "Indicator 'nonexistent_xyz' not found".
Proof.
  assert (B : CNNFearAndGreedIndex.build (PDict example_document)
              = OK example_snapshot) by (vm_compute; reflexivity).
  split; [exact B|].
  exact (proj2 (fuzzy_indicator_lookup example_snapshot "vix")
               (PDict example_document) B).
Defined.

(** C7, as stated, fails: this document carries a three-point series,
    and the builder raises before storing anything. *)
Lemma series_not_stored_on_null_composite :
  dict_find document_null_composite "fear_and_greed_historical"
  = Some (PDict [("data", PList three_points)]) /\
  CNNFearAndGreedIndex.build (PDict document_null_composite)
  = Raise AttributeError.
Proof. split; reflexivity. Qed.

Lemma historical_series_round_trip_witness :
  CNNFearAndGreedIndex.build (PDict example_document) = OK example_snapshot /\
  dict_find example_document "fear_and_greed_historical"
  = Some (PDict [("data", PList three_points)]) /\
  dict_find [("data", PList three_points)] "data" = Some (PList three_points) /\
  CNNFearAndGreedIndex.get_historical_data example_snapshot
  = PList three_points.
Proof.
  assert (B : CNNFearAndGreedIndex.build (PDict example_document)
              = OK example_snapshot) by (vm_compute; reflexivity).
  split; [exact B|]. split; [reflexivity|]. split; [reflexivity|].
  exact (proj2 (historical_series_round_trip example_document
                  [("data", PList three_points)] three_points
                  example_snapshot B eq_refl eq_refl)).
Defined.

(** C8, as stated, fails: status 300 is not a 2xx status; the fetch
    returns the decoded body, from which a snapshot is built, and with a
    body that is not JSON what it raises is the decoding error. *)
Lemma fetch_returns_on_status_300 :
  fst (scrape_cnn._get_fear_greed_data
         (network_answering (Responded 300 (Some (PDict example_document)))))
  = OK (PDict example_document) /\
  fst (CNNFearAndGreedIndex.__init__
         (network_answering (Responded 300 (Some (PDict example_document)))))
  = OK example_snapshot /\
  fst (scrape_cnn._get_fear_greed_data
         (network_answering (Responded 300 None)))
  = Raise JSONDecodeError.
Proof. repeat split; vm_compute; reflexivity. Qed.

Lemma fetch_single_attempt_witness :
  (400 <= 503 < 600)%Z /\
  fst (scrape_cnn._get_fear_greed_data
         (network_answering (Responded 503 None)))
  = Raise (HTTPError 503) /\
  CNNFearAndGreedIndex.__init__ (network_answering TimedOut)
  = (Raise Timeout, {| server := fun _ _ => TimedOut; sent := [the_request] |}).
Proof.
  split; [lia|]. split.
  - destruct (fetch_single_attempt (network_answering (Responded 503 None)))
      as (_ & H & _).
    simpl in H. apply (proj1 H). lia.
  - destruct (fetch_single_attempt (network_answering TimedOut))
      as (_ & H & I & _).
    simpl in H. exact (I Timeout H).
Defined.


End Examples.

(** * Further properties *)

(** ** The snapshot cache *)

Section Cache.
Context {RT : Runtime}.

Lemma init_sends_one (net : network) :
  sent (snd (CNNFearAndGreedIndex.__init__ net))
  = (sent net ++ [the_request])%list.
Proof. rewrite init_after_fetch. simpl. apply fetch_sends_one. Qed.

(** A populated cache no older than 300 seconds is served as it is. *)
Lemma cache_hit_sends_nothing (now fetched : Q)
  (fgi : CNNFearAndGreedIndex.t) (c : api_server_cache.cache) (net : network) :
  api_server_cache.data c = Some fgi ->
  api_server_cache.timestamp c = Some fetched ->
  now - fetched <= 300 ->
  api_server_cache.get_fgi now c net = (OK fgi, c, net).
Proof.
  intros Hd Ht Hage. unfold api_server_cache.get_fgi.
  rewrite Hd, Ht. now rewrite Qltb_false.
Qed.

Lemma cache_refresh (now : Q) (c : api_server_cache.cache) (net : network) :
  (api_server_cache.data c = None \/
   api_server_cache.timestamp c = None \/
   exists fetched, api_server_cache.timestamp c = Some fetched /\
                   300 < now - fetched) ->
  api_server_cache.get_fgi now c net
  = match fst (CNNFearAndGreedIndex.__init__ net) with
    | OK fgi =>
        (OK fgi,
         {| api_server_cache.data := Some fgi;
            api_server_cache.timestamp := Some now |},
         snd (CNNFearAndGreedIndex.__init__ net))
    | Raise e => (Raise e, c, snd (CNNFearAndGreedIndex.__init__ net))
    end.
Proof.
  intros H. unfold api_server_cache.get_fgi.
  destruct (CNNFearAndGreedIndex.__init__ net) as [r net'] eqn:E. simpl.
  destruct (api_server_cache.data c) as [old|];
    destruct (api_server_cache.timestamp c) as [ts|]; try reflexivity.
  destruct H as [H|[H|(fetched & Hf & Hage)]]; try discriminate.
  injection Hf as <-. now rewrite Qltb_true.
Qed.

Lemma refresh_sends_one (now : Q) (c : api_server_cache.cache) (net : network) :
  (api_server_cache.data c = None \/
   api_server_cache.timestamp c = None \/
   exists fetched, api_server_cache.timestamp c = Some fetched /\
                   300 < now - fetched) ->
  sent (snd (api_server_cache.get_fgi now c net))
  = (sent net ++ [the_request])%list.
Proof.
  intros H. rewrite (cache_refresh now c net H).
  destruct (fst (CNNFearAndGreedIndex.__init__ net)); apply init_sends_one.
Qed.

(** When the cache is empty or older than 300 seconds and the fetch
    raises, the exception is what [get_fgi] raises: the old snapshot is
    not served in its place, the cache keeps its old content (so the
    next call tries again), and exactly one request was sent. *)
Theorem cache_never_stores_a_failure (now : Q) (c : api_server_cache.cache)
  (net : network) (e : exn) :
  (api_server_cache.data c = None \/
   api_server_cache.timestamp c = None \/
   exists fetched, api_server_cache.timestamp c = Some fetched /\
                   300 < now - fetched) ->
  fst (CNNFearAndGreedIndex.__init__ net) = Raise e ->
  exists net',
    api_server_cache.get_fgi now c net = (Raise e, c, net') /\
    sent net' = (sent net ++ [the_request])%list.
Proof.
  intros Hstale He. rewrite (cache_refresh now c net Hstale), He.
  eexists. split; [reflexivity|]. apply init_sends_one.
Qed.

(** After a refresh at time [t0] that returned a snapshot, every call
    up to and including 300 seconds later returns that same snapshot,
    leaves the cache alone and sends nothing; the first call later than
    that sends one new request. *)
Theorem cache_serves_window (t0 : Q) (c : api_server_cache.cache)
  (net : network) (fgi : CNNFearAndGreedIndex.t) :
  (api_server_cache.data c = None \/
   api_server_cache.timestamp c = None \/
   exists fetched, api_server_cache.timestamp c = Some fetched /\
                   300 < t0 - fetched) ->
  fst (CNNFearAndGreedIndex.__init__ net) = OK fgi ->
  exists c' net',
    api_server_cache.get_fgi t0 c net = (OK fgi, c', net') /\
    sent net' = (sent net ++ [the_request])%list /\
    (forall t1 : Q,
        t1 - t0 <= 300 ->
        api_server_cache.get_fgi t1 c' net' = (OK fgi, c', net')) /\
    (forall t1 : Q,
        300 < t1 - t0 ->
        sent (snd (api_server_cache.get_fgi t1 c' net'))
        = (sent net' ++ [the_request])%list).
Proof.
  intros Hstale Hok. rewrite (cache_refresh t0 c net Hstale), Hok.
  eexists. eexists. split; [reflexivity|]. split; [apply init_sends_one|].
  split.
  - intros t1 Ht. now apply cache_hit_sends_nothing with (fetched := t0).
  - intros t1 Ht. apply refresh_sends_one. right. right. now exists t0.
Qed.

(** Whatever snapshot [get_fgi] returns is the one the cache holds
    afterwards, with a fetch time at most 300 seconds before the call:
    a snapshot older than that is never returned. *)
Theorem cache_holds_what_it_returns (now : Q) (c c' : api_server_cache.cache)
  (net net' : network) (fgi : CNNFearAndGreedIndex.t) :
  api_server_cache.get_fgi now c net = (OK fgi, c', net') ->
  api_server_cache.data c' = Some fgi /\
  exists fetched,
    api_server_cache.timestamp c' = Some fetched /\
    now - fetched <= 300.
Proof.
  unfold api_server_cache.get_fgi.
  destruct (CNNFearAndGreedIndex.__init__ net) as [r net1] eqn:E.
  assert (R : match r with
              | OK fresh =>
                  (OK fresh,
                   {| api_server_cache.data := Some fresh;
                      api_server_cache.timestamp := Some now |}, net1)
              | Raise e => (Raise e, c, net1)
              end = (OK fgi, c', net') ->
              api_server_cache.data c' = Some fgi /\
              exists fetched,
                api_server_cache.timestamp c' = Some fetched /\
                now - fetched <= 300).
  { destruct r as [fresh|e]; [|discriminate].
    intros H. injection H as <- <- <-. simpl. split; [reflexivity|].
    exists now. split; [reflexivity|lra]. }
  destruct (api_server_cache.data c) as [old|] eqn:Hd; [|exact R].
  destruct (api_server_cache.timestamp c) as [ts|] eqn:Ht; [|exact R].
  destruct (Qltb 300 (now - ts)) eqn:Hage; [exact R|].
  intros H. injection H as <- <- <-. split; [exact Hd|].
  exists ts. split; [exact Ht|].
  unfold Qltb in Hage. apply negb_false_iff in Hage.
  now apply Qle_bool_iff in Hage.
Qed.

End Cache.

(** ** The builder and the constructor *)

Section BuilderExtras.
Context {RT : Runtime}.

(** The builder reads nine entries of the raw document and nothing
    else: two documents that agree on the composite, the historical and
    the seven indicator entries are built into the same result, so an
    entry under any other key is ignored. *)
Theorem builder_reads_nine_entries (items items' : list (string * pyval)) :
  (forall k, In k recognised_keys -> dict_find items k = dict_find items' k) ->
  CNNFearAndGreedIndex.build (PDict items)
  = CNNFearAndGreedIndex.build (PDict items').
Proof.
  intros H. unfold CNNFearAndGreedIndex.build.
  simpl attr_get. simpl bind.
  rewrite !(dict_get_find items), !(dict_get_find items').
  rewrite !(H _) by (simpl; tauto).
  reflexivity.
Qed.

Lemma fetch_outcome (net : network) :
  fst (scrape_cnn._get_fear_greed_data net)
  = match server net (List.length (sent net)) the_request with
    | ConnectionFailed => Raise ConnectionError
    | TimedOut => Raise Timeout
    | Responded status json_body =>
        if ((400 <=? status) && (status <? 600))%Z
        then Raise (HTTPError status)
        else match json_body with
             | Some document => OK document
             | None => Raise JSONDecodeError
             end
    end.
Proof.
  unfold scrape_cnn._get_fear_greed_data, requests_get. fold the_request.
  destruct (server net (List.length (sent net)) the_request)
    as [| |status json_body]; try reflexivity.
  simpl. unfold raise_for_status. simpl.
  now destruct ((400 <=? status) && (status <? 600))%Z.
Qed.

(** The constructor returns a snapshot exactly when the one request it
    sends is answered with a status outside 400..599 and a JSON body
    that is a well-formed mapping; the snapshot is then the one the
    builder makes of that body. *)
Theorem constructor_returns_iff (net : network) (fgi : CNNFearAndGreedIndex.t) :
  fst (CNNFearAndGreedIndex.__init__ net) = OK fgi <->
  exists (status : Z) (items : list (string * pyval)),
    server net (List.length (sent net)) the_request
    = Responded status (Some (PDict items)) /\
    ~ (400 <= status < 600)%Z /\
    well_formed items = true /\
    CNNFearAndGreedIndex.build (PDict items) = OK fgi.
Proof.
  rewrite init_after_fetch. simpl. rewrite fetch_outcome. split.
  - destruct (server net (List.length (sent net)) the_request)
      as [| |status json_body]; try discriminate.
    destruct ((400 <=? status) && (status <? 600))%Z eqn:E; [discriminate|].
    destruct json_body as [document|]; [|discriminate]. simpl. intros H.
    destruct (build_OK document fgi H) as (items & _ & _ & -> & _).
    exists status, items. split; [reflexivity|]. split; [|split].
    + intros [H1 H2]. apply andb_false_iff in E.
      destruct E as [E|E]; [apply Z.leb_gt in E|apply Z.ltb_ge in E]; lia.
    + apply build_returns_iff. now exists fgi.
    + exact H.
  - intros (status & items & -> & Hs & _ & H).
    replace ((400 <=? status) && (status <? 600))%Z with false; [exact H|].
    symmetry. apply andb_false_iff.
    destruct (Z.leb_spec 400 status); [|now left].
    destruct (Z.ltb_spec status 600); [lia|now right].
Qed.

(** A default stands in for an absent key only.  A composite score that
    is present but not a number (JSON [null], a text) is stored as it is:
    the builder accepts the document, and each derived metric of that
    snapshot then raises [TypeError]. *)
Theorem non_numeric_score_is_stored (items fg : list (string * pyval))
  (v : pyval) :
  dict_get items "fear_and_greed" (PDict []) = PDict fg ->
  dict_find fg "score" = Some v ->
  num_value v = None ->
  well_formed items = true ->
  exists fgi,
    CNNFearAndGreedIndex.build (PDict items) = OK fgi /\
    CNNFearAndGreedIndex.score fgi = v /\
    api_server.get_trading_signal fgi = Raise TypeError /\
    fgi_cli.signal fgi = Raise TypeError /\
    fgi_mcp_server.get_trading_signal fgi = Raise TypeError /\
    fgi_cli.get_color_for_score (CNNFearAndGreedIndex.score fgi)
    = Raise TypeError /\
    app.get_color_for_score (CNNFearAndGreedIndex.score fgi) = Raise TypeError.
Proof.
  intros Hfg Hs Hn W.
  apply build_returns_iff in W. destruct W as [fgi H].
  exists fgi. split; [exact H|].
  destruct (build_OK _ fgi H) as (items' & fg' & hist & E & Hfg' & _ & _ &
                                  Hscore & _).
  injection E as <-. rewrite Hfg in Hfg'. injection Hfg' as <-.
  rewrite dict_get_find, Hs in Hscore.
  split; [exact Hscore|].
  unfold api_server.get_trading_signal, fgi_cli.signal,
    fgi_mcp_server.get_trading_signal, fgi_cli.get_color_for_score,
    app.get_color_for_score, py_lt.
  cbv zeta. rewrite Hscore, Hn. repeat split.
Qed.

End BuilderExtras.

(** ** The two scales *)

Section Scales.
Context {RT : Runtime}.

(** Both scales are monotone: of two numeric scores, the higher is
    never put in a lower trading-signal band nor in a lower severity
    band; scores of equal value (an int and a float, say) get the same
    band. *)
Theorem bands_are_monotone (fgi fgi' : CNNFearAndGreedIndex.t) (s s' : Q) :
  num_value (CNNFearAndGreedIndex.score fgi) = Some s ->
  num_value (CNNFearAndGreedIndex.score fgi') = Some s' ->
  s <= s' ->
  exists (b b' : Signal) (c c' : Severity),
    api_server.get_trading_signal fgi
    = OK (api_signal_name b, signal_recommendation b) /\
    api_server.get_trading_signal fgi'
    = OK (api_signal_name b', signal_recommendation b') /\
    (signal_rank b <= signal_rank b')%nat /\
    fgi_cli.get_color_for_score (CNNFearAndGreedIndex.score fgi)
    = OK (cli_color c) /\
    fgi_cli.get_color_for_score (CNNFearAndGreedIndex.score fgi')
    = OK (cli_color c') /\
    (severity_rank c <= severity_rank c')%nat.
Proof.
  intros Hv Hv' Hle.
  destruct (spec_signal_band_total s) as [b Hb].
  destruct (spec_signal_band_total s') as [b' Hb'].
  destruct (spec_severity_band_total s) as [c Hc].
  destruct (spec_severity_band_total s') as [c' Hc'].
  exists b, b', c, c'.
  split; [exact (api_signal_in_band fgi s b Hv Hb)|].
  split; [exact (api_signal_in_band fgi' s' b' Hv' Hb')|].
  split.
  { destruct Hb; inversion Hb'; subst; simpl; try lia; lra. }
  split; [exact (proj1 (banding_functions_in_band _ s c Hv Hc))|].
  split; [exact (proj1 (banding_functions_in_band _ s' c' Hv' Hc'))|].
  destruct Hc; inversion Hc'; subst; simpl; try lia; lra.
Qed.

(** The trading-signal band and the severity band of one score are
    never more than one band apart, although their boundaries differ. *)
Theorem scales_within_one_band (fgi : CNNFearAndGreedIndex.t) (s : Q) :
  num_value (CNNFearAndGreedIndex.score fgi) = Some s ->
  exists (b : Signal) (c : Severity),
    api_server.get_trading_signal fgi
    = OK (api_signal_name b, signal_recommendation b) /\
    fgi_cli.get_color_for_score (CNNFearAndGreedIndex.score fgi)
    = OK (cli_color c) /\
    fgi_cli.get_emoji_for_score (CNNFearAndGreedIndex.score fgi)
    = OK (cli_emoji c) /\
    (signal_rank b <= severity_rank c + 1)%nat /\
    (severity_rank c <= signal_rank b + 1)%nat.
Proof.
  intros Hv.
  destruct (spec_signal_band_total s) as [b Hb].
  destruct (spec_severity_band_total s) as [c Hc].
  exists b, c.
  split; [exact (api_signal_in_band fgi s b Hv Hb)|].
  destruct (banding_functions_in_band _ s c Hv Hc) as (H1 & H2 & _).
  split; [exact H1|]. split; [exact H2|].
  destruct Hb; inversion Hc; subst; simpl; split; try lia; lra.
Qed.

Lemma mapM_OK {A B : Type} (f : A -> result B) (xs : list A) (ys : list B) :
  mapM f xs = OK ys <-> Forall2 (fun x y => f x = OK y) xs ys.
Proof.
  revert ys. induction xs as [|x xs IH]; intros ys; simpl.
  - split.
    + intros H. injection H as <-. constructor.
    + intros H. inversion H. reflexivity.
  - split.
    + intros H. apply bind_OK in H. destruct H as (y & Hy & H).
      apply bind_OK in H. destruct H as (ys' & Hys & H).
      injection H as <-. constructor; [exact Hy|]. now apply IH.
    + intros H. inversion H as [|? y ? ys' Hy Hys]; subst.
      rewrite Hy. simpl. apply IH in Hys. rewrite Hys. reflexivity.
Qed.

Lemma mapM_Raise {A B : Type} (f : A -> result B) (e : exn) (xs : list A) :
  (forall x, In x xs -> succeeds (f x) = true \/ f x = Raise e) ->
  Exists (fun x => f x = Raise e) xs ->
  mapM f xs = Raise e.
Proof.
  induction xs as [|x xs IH]; intros Hall Hex; [inversion Hex|].
  simpl. destruct (Hall x (or_introl eq_refl)) as [Hs|Hr].
  - destruct (f x) as [y|e'] eqn:E; [|discriminate]. simpl.
    rewrite IH; [reflexivity| |].
    + intros x' Hin. apply Hall. now right.
    + inversion Hex as [? ? Hx|]; subst; [congruence|assumption].
  - now rewrite Hr.
Qed.

Lemma bar_color_outcome (v : pyval) :
  match num_value v with
  | Some _ => succeeds (CNNFearAndGreedIndex.bar_color v) = true
  | None => CNNFearAndGreedIndex.bar_color v = Raise TypeError
  end.
Proof.
  destruct (num_value v) as [s|] eqn:E.
  - destruct (spec_severity_band_total s) as [b Hb].
    destruct (banding_functions_in_band v s b E Hb) as (_ & _ & _ & H).
    now rewrite H.
  - unfold CNNFearAndGreedIndex.bar_color, py_lt. now rewrite E.
Qed.

(** The bar chart gets one colour per indicator, seven in all, when
    every indicator score is a number; a single score that is not a
    number makes the whole computation raise [TypeError]. *)
Theorem chart_colors_need_numeric_scores (fgi : CNNFearAndGreedIndex.t) :
  (Forall (fun ind => num_value (FearAndGreedIndicator.score ind) <> None)
          (CNNFearAndGreedIndex.all_indicators fgi) ->
   exists colors,
     CNNFearAndGreedIndex.plot_all_indicators_colors fgi = OK colors /\
     List.length colors = 7%nat) /\
  (Exists (fun ind => num_value (FearAndGreedIndicator.score ind) = None)
          (CNNFearAndGreedIndex.all_indicators fgi) ->
   CNNFearAndGreedIndex.plot_all_indicators_colors fgi = Raise TypeError).
Proof.
  unfold CNNFearAndGreedIndex.plot_all_indicators_colors.
  assert (L : List.length (CNNFearAndGreedIndex.all_indicators fgi) = 7%nat)
    by reflexivity.
  revert L. generalize (CNNFearAndGreedIndex.all_indicators fgi) as inds.
  intros inds L. split.
  - intros Hall.
    assert (H : exists colors,
               Forall2 (fun v c => CNNFearAndGreedIndex.bar_color v = OK c)
                       (map FearAndGreedIndicator.score inds) colors).
    { clear L. induction Hall as [|ind inds Hn _ IH].
      - exists []. constructor.
      - destruct IH as [cs IH].
        pose proof (bar_color_outcome (FearAndGreedIndicator.score ind)) as Ho.
        destruct (num_value (FearAndGreedIndicator.score ind)); [|congruence].
        apply succeeds_OK in Ho. destruct Ho as [c Hc].
        exists (c :: cs). simpl. now constructor. }
    destruct H as [colors H]. exists colors. split.
    + now apply mapM_OK.
    + apply Forall2_length in H. rewrite length_map in H. congruence.
  - intros Hex. apply mapM_Raise.
    + intros v _. pose proof (bar_color_outcome v) as Ho.
      destruct (num_value v); [now left|now right].
    + clear L. induction Hex as [ind inds Hn|ind inds _ IH]; simpl.
      * left. pose proof (bar_color_outcome (FearAndGreedIndicator.score ind)) as Ho.
        now rewrite Hn in Ho.
      * now right.
Qed.

End Scales.

(** ** Lookup by name *)

Section LookupByName.
Context {RT : Runtime}.

Lemma first_match_own_name (inds : list FearAndGreedIndicator.t)
  (i : nat) (ind : FearAndGreedIndicator.t) :
  map FearAndGreedIndicator.name inds = canonical_names ->
  nth_error inds i = Some ind ->
  api_server.first_match (py_lower (FearAndGreedIndicator.name ind)) inds
  = Some ind.
Proof.
  unfold canonical_names. simpl.
  destruct inds as [|i1 [|i2 [|i3 [|i4 [|i5 [|i6 [|i7 [|i8 inds]]]]]]]];
    try discriminate.
  intros H. injection H as H1 H2 H3 H4 H5 H6 H7.
  destruct i as [|[|[|[|[|[|[|i]]]]]]]; simpl; intros E;
    try (injection E as <-);
    try (destruct i; discriminate);
    cbn [api_server.first_match];
    rewrite H1, H2, H3, H4, H5, H6, H7;
    vm_compute; reflexivity.
Qed.

(** Every indicator of a built snapshot is found by its own name: a
    query that is the canonical name in any letter case, with any of its
    spaces written as an underscore or a hyphen, returns that indicator
    and no earlier one. *)
Theorem indicator_found_by_its_name (data : pyval)
  (fgi : CNNFearAndGreedIndex.t) (i : nat) (ind : FearAndGreedIndicator.t)
  (query : string) :
  CNNFearAndGreedIndex.build data = OK fgi ->
  nth_error (CNNFearAndGreedIndex.all_indicators fgi) i = Some ind ->
  spec_normalize query = py_lower (FearAndGreedIndicator.name ind) ->
  api_server.get_indicator fgi query
  = api_server.Found (FearAndGreedIndicator.name ind)
      (FearAndGreedIndicator.score ind)
      (FearAndGreedIndicator.rating ind)
      (FearAndGreedIndicator.timestamp ind).
Proof.
  intros H Hi Hq. unfold api_server.get_indicator.
  rewrite normalize_query, Hq.
  now rewrite (first_match_own_name _ i ind (built_names data fgi H) Hi).
Qed.

End LookupByName.

(** ** History views *)

Lemma skipn_min {A : Type} (k : nat) (l : list A) :
  skipn (Nat.min k (List.length l)) l = skipn k l.
Proof.
  destruct (Nat.le_ge_cases k (List.length l)) as [H|H].
  - now rewrite Nat.min_l.
  - rewrite Nat.min_r by assumption.
    rewrite !skipn_all2; [reflexivity|assumption|lia].
Qed.

Lemma Forall2_rev_l {A B : Type} (R : A -> B -> Prop)
  (l : list A) (l' : list B) :
  Forall2 R l l' -> Forall2 R (rev l) (rev l').
Proof.
  induction 1 as [|x y l l' Hxy _ IH]; simpl; [constructor|].
  apply Forall2_app; [exact IH|]. now repeat constructor.
Qed.

Section HistoryExtras.
Context {RT : Runtime}.

(** A negative limit does not limit: [-k] drops the oldest [k] points
    and keeps all the others (none, when the series has at most [k]). *)
Theorem negative_limit_drops_oldest (fgi : CNNFearAndGreedIndex.t)
  (points : list pyval) (k : Z) :
  CNNFearAndGreedIndex.get_historical_data fgi = PList points ->
  (0 < k)%Z ->
  let kept := skipn (Z.to_nat k) points in
  history_window fgi (PInt (- k)) = OK (PList kept) /\
  api_server.get_historical fgi (- k) = mapM api_server.history_row_of kept /\
  fgi_cli.history fgi (- k) = mapM fgi_cli.history_row_of (rev kept) /\
  fgi_mcp_server.get_fear_greed_history fgi [("days", PInt (- k))]
  = mapM fgi_mcp_server.history_line_of (rev kept).
Proof.
  intros H Hk kept.
  assert (W : history_window fgi (PInt (- k)) = OK (PList kept)).
  { unfold history_window. simpl. rewrite H. simpl.
    unfold slice_start. replace (- - k <? 0)%Z with false
      by (symmetry; apply Z.ltb_ge; lia).
    rewrite Z.opp_involutive. now rewrite skipn_min. }
  split; [exact W|].
  unfold api_server.get_historical, fgi_cli.history,
    fgi_mcp_server.get_fear_greed_history.
  simpl dict_get. rewrite W. repeat split.
Qed.

(** The windows nest: raising a positive limit only adds older points
    in front of the window. *)
Theorem windows_nest (fgi : CNNFearAndGreedIndex.t) (points : list pyval)
  (n m : Z) :
  CNNFearAndGreedIndex.get_historical_data fgi = PList points ->
  (0 < n <= m)%Z ->
  exists smaller larger older : list pyval,
    history_window fgi (PInt n) = OK (PList smaller) /\
    history_window fgi (PInt m) = OK (PList larger) /\
    larger = (older ++ smaller)%list /\
    List.length older
    = (Nat.min (Z.to_nat m) (List.length points)
       - Nat.min (Z.to_nat n) (List.length points))%nat.
Proof.
  intros H [Hn Hm].
  set (len := List.length points).
  set (kn := Nat.min (Z.to_nat n) len).
  set (km := Nat.min (Z.to_nat m) len).
  exists (lastn kn points), (lastn km points),
    (firstn (km - kn) (lastn km points)).
  split; [apply (window_positive fgi points n H Hn)|].
  split; [apply (window_positive fgi points m H); lia|].
  assert (Hle : (kn <= km)%nat) by (subst kn km; lia).
  assert (Hkm : (km <= len)%nat) by (subst km; lia).
  split.
  - unfold lastn. fold len.
    replace (skipn (len - kn) points)
      with (skipn (km - kn) (skipn (len - km) points)).
    + now rewrite firstn_skipn.
    + rewrite skipn_skipn. f_equal. lia.
  - rewrite length_firstn. unfold lastn. rewrite length_skipn. fold len. lia.
Qed.

Lemma rest_row_OK (p : pyval) (row : api_server.history_row) :
  api_server.history_row_of p = OK row <->
  point_shows p (api_server.date row) (api_server.row_score row)
    (api_server.row_rating row).
Proof.
  unfold api_server.history_row_of, point_shows, py_getitem, py_truediv.
  split.
  - intros H. destruct p; try discriminate.
    destruct (dict_find items "x") as [x|] eqn:Ex; [|discriminate].
    simpl in H. destruct (num_value x) as [ms|] eqn:En; [|discriminate].
    simpl in H. destruct (fromtimestamp (ms / inject_Z 1000)) as [dt|] eqn:Ed;
      [|discriminate].
    simpl in H. destruct (dict_find items "y") as [y|] eqn:Ey; [|discriminate].
    simpl in H. destruct (dict_find items "rating") as [r|] eqn:Er;
      [|discriminate].
    simpl in H. injection H as <-. simpl.
    exists items, x, ms. repeat split; assumption.
  - intros (d & x & ms & -> & Ex & En & Ed & Ey & Er).
    rewrite Ex. simpl. rewrite En. simpl. rewrite Ed. simpl.
    rewrite Ey. simpl. rewrite Er. simpl. now destruct row.
Qed.

(** The REST history returns rows exactly when every point of the
    window is a mapping with a numeric ["x"] that the runtime converts,
    a ["y"] and a ["rating"]; there is then one row per point of the
    window, in order, carrying the point's ["y"] and ["rating"] as they
    are.  Points older than the window are not looked at. *)
Theorem rest_history_rows (fgi : CNNFearAndGreedIndex.t)
  (points : list pyval) (n : Z) (rows : list api_server.history_row) :
  CNNFearAndGreedIndex.get_historical_data fgi = PList points ->
  (0 < n)%Z ->
  let window := lastn (Nat.min (Z.to_nat n) (List.length points)) points in
  (api_server.get_historical fgi n = OK rows <->
   Forall2 (fun p row =>
              point_shows p (api_server.date row) (api_server.row_score row)
                (api_server.row_rating row))
           window rows) /\
  (api_server.get_historical fgi n = OK rows ->
   List.length rows = Nat.min (Z.to_nat n) (List.length points)).
Proof.
  intros H Hn window.
  assert (E : api_server.get_historical fgi n
              = mapM api_server.history_row_of window).
  { unfold api_server.get_historical.
    now rewrite (window_positive fgi points n H Hn). }
  rewrite E, mapM_OK. split.
  - split; apply Forall2_impl; intros p row; apply rest_row_OK.
  - intros F. apply Forall2_length in F. rewrite <- F.
    now apply lastn_is_suffix; lia.
Qed.

Lemma cli_row_is_rest_row (p : pyval) (row : fgi_cli.history_row) :
  fgi_cli.history_row_of p = OK row ->
  api_server.history_row_of p
  = OK {| api_server.date := fgi_cli.date row;
          api_server.row_score := fgi_cli.row_score row;
          api_server.row_rating := PStr (fgi_cli.row_rating row) |}.
Proof.
  unfold fgi_cli.history_row_of, api_server.history_row_of.
  intros H.
  apply bind_OK in H. destruct H as (x & -> & H). simpl.
  apply bind_OK in H. destruct H as (sec & -> & H). simpl.
  apply bind_OK in H. destruct H as (dt & -> & H). simpl.
  apply bind_OK in H. destruct H as (y & -> & H). simpl.
  apply bind_OK in H. destruct H as (r & -> & H). simpl.
  apply bind_OK in H. destruct H as (color & _ & H).
  apply bind_OK in H. destruct H as (emoji & _ & H).
  destruct r; try discriminate. injection H as <-. reflexivity.
Qed.

(** Whenever the terminal history prints, the REST history of the same
    snapshot and limit returns too, and the terminal rows are the REST
    rows read backwards (newest first), with the same dates, scores and
    ratings. *)
Theorem cli_history_is_rest_history_reversed (fgi : CNNFearAndGreedIndex.t)
  (limit : Z) (rows : list fgi_cli.history_row) :
  fgi_cli.history fgi limit = OK rows ->
  api_server.get_historical fgi limit
  = OK (rev (map (fun row =>
                    {| api_server.date := fgi_cli.date row;
                       api_server.row_score := fgi_cli.row_score row;
                       api_server.row_rating := PStr (fgi_cli.row_rating row) |})
                 rows)).
Proof.
  unfold fgi_cli.history, api_server.get_historical. intros H.
  apply bind_OK in H. destruct H as (historical & -> & H). simpl.
  apply bind_OK in H. destruct H as (points & Hp & H).
  assert (E : exists l, py_iter historical = OK l /\ points = rev l).
  { destruct historical; try discriminate; simpl in Hp;
      injection Hp as <-; eexists; split; reflexivity. }
  destruct E as (l & -> & ->). simpl.
  apply mapM_OK in H. apply mapM_OK.
  apply Forall2_rev_l in H. rewrite rev_involutive in H.
  rewrite <- map_rev.
  clear - H. induction H as [|p row l rows' Hrow _ IH]; simpl; constructor.
  - now apply cli_row_is_rest_row.
  - exact IH.
Qed.

(** The tool view takes ten days when ["days"] is not given, and raises
    [TypeError] when ["days"] is anything but an integer (a float, a
    text, [null]). *)
Theorem tool_history_days (fgi : CNNFearAndGreedIndex.t)
  (arguments : list (string * pyval)) :
  (dict_find arguments "days" = None ->
   fgi_mcp_server.get_fear_greed_history fgi arguments
   = fgi_mcp_server.get_fear_greed_history fgi [("days", PInt 10)]) /\
  (forall v : pyval,
      dict_find arguments "days" = Some v ->
      (forall z, v <> PInt z) -> (forall b, v <> PBool b) ->
      fgi_mcp_server.get_fear_greed_history fgi arguments = Raise TypeError).
Proof.
  unfold fgi_mcp_server.get_fear_greed_history. split.
  - intros H. now rewrite dict_get_find, H.
  - intros v H Hz Hb. rewrite dict_get_find, H.
    unfold history_window.
    destruct v; try reflexivity;
      try (now destruct (Hz z)); try (now destruct (Hb b)).
    simpl. now destruct (CNNFearAndGreedIndex.get_historical_data fgi).
Qed.

End HistoryExtras.

(** ** Text reports and tools *)

Lemma length_append (s t : string) :
  String.length (s ++ t) = (String.length s + String.length t)%nat.
Proof. induction s as [|c s IH]; simpl; [reflexivity|now rewrite IH]. Qed.

Lemma length_string_repeat (n : nat) (c : ascii) :
  String.length (string_repeat n c) = n.
Proof. induction n as [|n IH]; simpl; [reflexivity|now rewrite IH]. Qed.

Lemma append_assoc (s t u : string) : (s ++ t) ++ u = s ++ (t ++ u).
Proof. induction s as [|c s IH]; simpl; [reflexivity|now rewrite IH]. Qed.

Lemma length_title_from (b : bool) (s : string) :
  String.length (title_from b s) = String.length s.
Proof.
  revert b. induction s as [|c s IH]; intros b; simpl; [reflexivity|].
  now rewrite IH.
Qed.

Section Reports.
Context {RT : Runtime} {FMT : Formatting}.

(** In the report of an indicator the part "[Updated ...]" begins at
    column 80, after the head "name: Rating (score)" padded with spaces;
    a head of 80 characters or more is not padded at all, and the part
    then follows it directly.  A rating that is not a text makes the
    report raise [AttributeError]. *)
Theorem report_is_padded_to_80 (self : FearAndGreedIndicator.t) :
  (forall text : string,
      text_reports.get_report self = OK text ->
      exists (rating score stamp : string),
        FearAndGreedIndicator.rating self = PStr rating /\
        format_value (FearAndGreedIndicator.score self) ".1f" = OK score /\
        let head := FearAndGreedIndicator.name self ++ ": " ++ py_title rating
                    ++ " (" ++ score ++ ")" in
        let padding := string_repeat (80 - String.length head) " " in
        text = (head ++ padding) ++ "[Updated " ++ stamp ++ "]" /\
        String.length (head ++ padding) = Nat.max 80 (String.length head)) /\
  ((forall rating, FearAndGreedIndicator.rating self <> PStr rating) ->
   text_reports.get_report self = Raise AttributeError).
Proof.
  unfold text_reports.get_report. split.
  - intros text.
    destruct (FearAndGreedIndicator.rating self) as [| | | |rating| |];
      cbn [attr_title bind]; try discriminate.
    destruct (format_value (FearAndGreedIndicator.score self) ".1f")
      as [score|e] eqn:Hs; cbn [bind]; [|discriminate].
    intros H. injection H as <-.
    exists rating, score. eexists.
    split; [reflexivity|]. split; [reflexivity|].
    cbv zeta. split.
    + symmetry. apply append_assoc.
    + rewrite length_append, length_string_repeat. lia.
  - intros H.
    destruct (FearAndGreedIndicator.rating self) as [| | | |rating| |];
      try reflexivity.
    now destruct (H rating).
Qed.

Lemma fetch_then_sends_one (text : CNNFearAndGreedIndex.t -> result string)
  (net : network) :
  sent (snd (fgi_mcp_tools.fetch_then text net))
  = (sent net ++ [the_request])%list.
Proof.
  unfold fgi_mcp_tools.fetch_then, fgi_mcp_tools.get_fgi_data.
  rewrite <- init_sends_one.
  now destruct (CNNFearAndGreedIndex.__init__ net).
Qed.

Lemma fetch_then_raises (text : CNNFearAndGreedIndex.t -> result string)
  (net : network) (e : exn) :
  fst (CNNFearAndGreedIndex.__init__ net) = Raise e ->
  fst (fgi_mcp_tools.fetch_then text net) = Raise e.
Proof.
  unfold fgi_mcp_tools.fetch_then, fgi_mcp_tools.get_fgi_data.
  destruct (CNNFearAndGreedIndex.__init__ net) as [r net']. simpl.
  now intros ->.
Qed.

(** [call_tool] implements exactly the six tools that [list_tools]
    announces.  Under each of these names it builds a fresh snapshot:
    it sends exactly one request, with no cache between calls, and when
    the constructor raises, the call raises the same exception.  Under
    any other name it sends nothing and answers "Unknown tool: name". *)
Theorem call_tool_dispatch (name : string) (arguments : list (string * pyval))
  (net : network) :
  (In name (map fgi_mcp_tools.name fgi_mcp_tools.list_tools) ->
   sent (snd (fgi_mcp_tools.call_tool name arguments net))
   = (sent net ++ [the_request])%list /\
   forall e : exn,
     fst (CNNFearAndGreedIndex.__init__ net) = Raise e ->
     fst (fgi_mcp_tools.call_tool name arguments net) = Raise e) /\
  (~ In name (map fgi_mcp_tools.name fgi_mcp_tools.list_tools) ->
   fgi_mcp_tools.call_tool name arguments net
   = (OK ("Unknown tool: " ++ name), net)).
Proof.
  unfold fgi_mcp_tools.call_tool. simpl map. split.
  - intros Hin.
    repeat match goal with
      | |- context [name =? ?k] =>
          destruct (String.eqb_spec name k) as [?|?];
            [cbv iota zeta;
             split; [apply fetch_then_sends_one
                    |intros err Herr; now apply fetch_then_raises]|]
      end.
    simpl in Hin. exfalso. intuition congruence.
  - intros Hnot.
    repeat match goal with
      | |- context [name =? ?k] =>
          destruct (String.eqb_spec name k) as [?|?];
            [exfalso; apply Hnot; simpl; subst name; tauto|]
      end.
    reflexivity.
Qed.

End Reports.

(** ** Timestamps, continued *)

Lemma replace_absent (old new s : string) :
  py_in old s = false -> py_replace s old new = s.
Proof.
  unfold py_replace. induction s as [|c s IH]; [reflexivity|].
  cbn [py_in]. intros H. apply orb_false_iff in H. destruct H as [H1 H2].
  cbn [replace_from]. rewrite H1. now rewrite IH.
Qed.

Section TimestampExtras.
Context {RT : Runtime}.

Lemma build_at_timestamp (items fg : list (string * pyval)) (v : pyval) (e : exn) :
  dict_get items "fear_and_greed" (PDict []) = PDict fg ->
  dict_find fg "timestamp" = Some v ->
  CNNFearAndGreedIndex.load_timestamp v = Raise e ->
  CNNFearAndGreedIndex.build (PDict items) = Raise e.
Proof.
  intros Hfg Hts He. unfold CNNFearAndGreedIndex.build.
  simpl attr_get. simpl bind. rewrite Hfg. simpl attr_get. simpl bind.
  now rewrite dict_get_find, Hts, He.
Qed.

(** A composite timestamp that does not contain "+00:00" (another
    offset, a "Z", no offset) reaches the parser exactly as upstream
    wrote it: the snapshot carries what the parser returns, and what the
    parser raises is what the builder raises. *)
Theorem other_timestamps_reach_the_parser_unchanged
  (items fg : list (string * pyval)) (s : string) :
  dict_get items "fear_and_greed" (PDict []) = PDict fg ->
  dict_find fg "timestamp" = Some (PStr s) ->
  s <> EmptyString ->
  ~ is_substring "+00:00" s ->
  rest_ok items = true ->
  match fromisoformat s with
  | OK d =>
      exists fgi,
        CNNFearAndGreedIndex.build (PDict items) = OK fgi /\
        CNNFearAndGreedIndex.timestamp fgi = Some d
  | Raise e => CNNFearAndGreedIndex.build (PDict items) = Raise e
  end.
Proof.
  intros Hfg Hts Hne Hno Hrest.
  assert (R : py_replace s "+00:00" "+0000" = s).
  { apply replace_absent. destruct (py_in "+00:00" s) eqn:E; [|reflexivity].
    apply py_in_spec in E. contradiction. }
  assert (T : truthy (PStr s) = true).
  { simpl. destruct (String.eqb_spec s EmptyString); [contradiction|reflexivity]. }
  destruct (fromisoformat s) as [d|e] eqn:P.
  - assert (P' : fromisoformat (py_replace s "+00:00" "+0000") = OK d)
      by now rewrite R.
    pose proof (well_formed_with_timestamp _ _ _ _ Hfg Hts P' Hrest) as W.
    apply build_returns_iff in W. destruct W as [fgi H].
    exists fgi. split; [exact H|].
    destruct (build_OK _ fgi H) as (items' & fg' & hist & E & Hfg' & _ & Hl & _).
    injection E as <-. rewrite Hfg in Hfg'. injection Hfg' as <-.
    rewrite dict_get_find, Hts in Hl.
    unfold CNNFearAndGreedIndex.load_timestamp in Hl.
    rewrite T, P' in Hl. simpl in Hl. congruence.
  - apply (build_at_timestamp items fg (PStr s) e Hfg Hts).
    unfold CNNFearAndGreedIndex.load_timestamp. now rewrite T, R, P.
Qed.

(** The two timestamp encodings are not interchangeable.  A composite
    timestamp that is truthy and not a text (epoch milliseconds, as the
    indicators carry) makes the builder raise [AttributeError]; an
    indicator timestamp that is truthy and not a number (an ISO text, as
    the composite carries) makes the indicator constructor raise
    [TypeError]. *)
Theorem timestamp_encodings_are_not_interchangeable :
  (forall (items fg : list (string * pyval)) (v : pyval),
      dict_get items "fear_and_greed" (PDict []) = PDict fg ->
      dict_find fg "timestamp" = Some v ->
      truthy v = true ->
      (forall s, v <> PStr s) ->
      CNNFearAndGreedIndex.build (PDict items) = Raise AttributeError) /\
  (forall (name : string) (d : list (string * pyval)) (v : pyval),
      dict_find d "timestamp" = Some v ->
      truthy v = true ->
      num_value v = None ->
      FearAndGreedIndicator.__init__ name (PDict d) = Raise TypeError).
Proof.
  split.
  - intros items fg v Hfg Hts T Hn.
    apply (build_at_timestamp items fg v AttributeError Hfg Hts).
    unfold CNNFearAndGreedIndex.load_timestamp. rewrite T.
    destruct v; try reflexivity. now destruct (Hn s).
  - intros name d v Hts T Hn.
    unfold FearAndGreedIndicator.__init__.
    assert (Td : truthy (PDict d) = true)
      by (destruct d; [discriminate|reflexivity]).
    rewrite Td. unfold FearAndGreedIndicator._load_from_data.
    simpl attr_get. simpl bind. rewrite dict_get_find, Hts, T.
    unfold py_truediv. now rewrite Hn.
Qed.

End TimestampExtras.

(** * The further properties at work *)

Section MoreExamples.
#[local] Existing Instance example_runtime.
#[local] Existing Instance example_formatting.

Example title_of_rating : py_title "extreme fear" = "Extreme Fear".
Proof. reflexivity. Qed.

Example title_of_default : py_title "N/A" = "N/A".
Proof. reflexivity. Qed.

Example report_of_placeholder :
  text_reports.get_report (FearAndGreedIndicator.blank "Safe Haven Demand")
  = OK ("Safe Haven Demand: N/A (0.0)"
        ++ string_repeat 52 " " ++ "[Updated N/A]").
Proof. reflexivity. Qed.

Example rest_history_of_five_points_limit_4 :
  api_server.get_historical (snapshot_with_series (PList five_points)) 4
  = Raise KeyError.
Proof. reflexivity. Qed.

Example unknown_tool :
  fgi_mcp_tools.call_tool "unknown_tool_name" [] (network_answering TimedOut)
  = (OK "Unknown tool: unknown_tool_name", network_answering TimedOut).
Proof. reflexivity. Qed.

Lemma cache_never_stores_a_failure_witness :
  (exists fetched,
      api_server_cache.timestamp cache_filled_at_0 = Some fetched /\
      300 < 301 - fetched) /\
  fst (CNNFearAndGreedIndex.__init__ (network_answering TimedOut))
  = Raise Timeout /\
  exists net',
    api_server_cache.get_fgi 301 cache_filled_at_0 (network_answering TimedOut)
    = (Raise Timeout, cache_filled_at_0, net') /\
    sent net' = [the_request].
Proof.
  assert (S : exists fetched,
             api_server_cache.timestamp cache_filled_at_0 = Some fetched /\
             300 < 301 - fetched)
    by (exists 0; split; [reflexivity|unfold Qlt; simpl; lia]).
  split; [exact S|]. split; [reflexivity|].
  exact (cache_never_stores_a_failure 301 cache_filled_at_0
           (network_answering TimedOut) Timeout
           (or_intror (or_intror S)) eq_refl).
Defined.

Lemma cache_holds_what_it_returns_witness :
  api_server_cache.get_fgi 300 cache_filled_at_0 (network_answering TimedOut)
  = (OK example_snapshot, cache_filled_at_0, network_answering TimedOut) /\
  api_server_cache.data cache_filled_at_0 = Some example_snapshot /\
  exists fetched,
    api_server_cache.timestamp cache_filled_at_0 = Some fetched /\
    300 - fetched <= 300.
Proof.
  assert (G : api_server_cache.get_fgi 300 cache_filled_at_0
                (network_answering TimedOut)
              = (OK example_snapshot, cache_filled_at_0,
                 network_answering TimedOut)) by reflexivity.
  split; [exact G|].
  exact (cache_holds_what_it_returns 300 cache_filled_at_0 cache_filled_at_0
           (network_answering TimedOut) (network_answering TimedOut)
           example_snapshot G).
Defined.

Lemma cache_serves_window_witness :
  api_server_cache.data api_server_cache._cache = None /\
  fst (CNNFearAndGreedIndex.__init__ network_answering_once)
  = OK example_snapshot /\
  exists c' net',
    api_server_cache.get_fgi 1000 api_server_cache._cache network_answering_once
    = (OK example_snapshot, c', net') /\
    api_server_cache.get_fgi 1300 c' net' = (OK example_snapshot, c', net').
Proof.
  assert (B : fst (CNNFearAndGreedIndex.__init__ network_answering_once)
              = OK example_snapshot) by (vm_compute; reflexivity).
  split; [reflexivity|]. split; [exact B|].
  destruct (cache_serves_window 1000 api_server_cache._cache
              network_answering_once example_snapshot
              (or_introl eq_refl) B)
    as (c' & net' & H0 & _ & Hw & _).
  exists c', net'. split; [exact H0|].
  apply Hw. unfold Qle. simpl. lia.
Defined.

Lemma builder_reads_nine_entries_witness :
  (forall k, In k recognised_keys ->
             dict_find example_document_extended k
             = dict_find example_document k) /\
  CNNFearAndGreedIndex.build (PDict example_document_extended)
  = CNNFearAndGreedIndex.build (PDict example_document).
Proof.
  assert (A : forall k, In k recognised_keys ->
                        dict_find example_document_extended k
                        = dict_find example_document k).
  { intros k Hk. simpl in Hk.
    repeat (destruct Hk as [<-|Hk]; [reflexivity|]). contradiction. }
  split; [exact A|].
  exact (builder_reads_nine_entries example_document_extended
           example_document A).
Defined.

Lemma constructor_returns_iff_witness :
  well_formed example_document = true /\
  fst (CNNFearAndGreedIndex.__init__
         (network_answering (Responded 200 (Some (PDict example_document)))))
  = OK example_snapshot.
Proof.
  assert (W : well_formed example_document = true) by (vm_compute; reflexivity).
  split; [exact W|].
  apply (proj2 (constructor_returns_iff
                  (network_answering (Responded 200 (Some (PDict example_document))))
                  example_snapshot)).
  exists 200%Z, example_document.
  split; [reflexivity|]. split; [lia|]. split; [exact W|].
  vm_compute. reflexivity.
Defined.

Lemma non_numeric_score_is_stored_witness :
  num_value PNone = None /\
  well_formed document_null_score = true /\
  exists fgi,
    CNNFearAndGreedIndex.build (PDict document_null_score) = OK fgi /\
    CNNFearAndGreedIndex.score fgi = PNone /\
    api_server.get_trading_signal fgi = Raise TypeError.
Proof.
  split; [reflexivity|]. split; [vm_compute; reflexivity|].
  destruct (non_numeric_score_is_stored document_null_score
              [("score", PNone); ("rating", PStr "greed")] PNone
              eq_refl eq_refl eq_refl)
    as (fgi & B & S & T & _); [vm_compute; reflexivity|].
  exists fgi. repeat split; assumption.
Defined.

Lemma bands_are_monotone_witness :
  num_value (CNNFearAndGreedIndex.score (snapshot_scoring (PInt 39))) = Some 39 /\
  num_value (CNNFearAndGreedIndex.score (snapshot_scoring (PFloat 40))) = Some 40 /\
  39 <= 40 /\
  exists b b' : Signal,
    api_server.get_trading_signal (snapshot_scoring (PInt 39))
    = OK (api_signal_name b, signal_recommendation b) /\
    api_server.get_trading_signal (snapshot_scoring (PFloat 40))
    = OK (api_signal_name b', signal_recommendation b') /\
    (signal_rank b <= signal_rank b')%nat.
Proof.
  assert (L : 39 <= 40) by (unfold Qle; simpl; lia).
  split; [reflexivity|]. split; [reflexivity|]. split; [exact L|].
  destruct (bands_are_monotone (snapshot_scoring (PInt 39))
              (snapshot_scoring (PFloat 40)) 39 40 eq_refl eq_refl L)
    as (b & b' & _ & _ & H1 & H2 & H3 & _).
  exists b, b'. repeat split; assumption.
Defined.

Lemma scales_within_one_band_witness :
  num_value (CNNFearAndGreedIndex.score (snapshot_scoring (PFloat 22))) = Some 22 /\
  exists (b : Signal) (c : Severity),
    api_server.get_trading_signal (snapshot_scoring (PFloat 22))
    = OK (api_signal_name b, signal_recommendation b) /\
    fgi_cli.get_color_for_score (PFloat 22) = OK (cli_color c) /\
    (signal_rank b <= severity_rank c + 1)%nat /\
    (severity_rank c <= signal_rank b + 1)%nat.
Proof.
  split; [reflexivity|].
  destruct (scales_within_one_band (snapshot_scoring (PFloat 22)) 22 eq_refl)
    as (b & c & H1 & H2 & _ & H3 & H4).
  exists b, c. repeat split; assumption.
Defined.

Lemma chart_colors_need_numeric_scores_witness :
  Forall (fun ind => num_value (FearAndGreedIndicator.score ind) <> None)
         (CNNFearAndGreedIndex.all_indicators example_snapshot) /\
  exists colors,
    CNNFearAndGreedIndex.plot_all_indicators_colors example_snapshot = OK colors /\
    List.length colors = 7%nat.
Proof.
  assert (F : Forall (fun ind => num_value (FearAndGreedIndicator.score ind) <> None)
                     (CNNFearAndGreedIndex.all_indicators example_snapshot))
    by (repeat constructor; discriminate).
  split; [exact F|].
  exact (proj1 (chart_colors_need_numeric_scores example_snapshot) F).
Defined.

Lemma indicator_found_by_its_name_witness :
  CNNFearAndGreedIndex.build (PDict example_document) = OK example_snapshot /\
  spec_normalize "MARKET_VOLATILITY-(VIX)" = "market volatility (vix)" /\
  api_server.get_indicator example_snapshot "MARKET_VOLATILITY-(VIX)"
  = api_server.Found "Market Volatility (VIX)" (PFloat 50) (PStr "neutral")
      (FearAndGreedIndicator.timestamp
         (CNNFearAndGreedIndex.market_volatility example_snapshot)).
Proof.
  assert (B : CNNFearAndGreedIndex.build (PDict example_document)
              = OK example_snapshot) by (vm_compute; reflexivity).
  split; [exact B|]. split; [reflexivity|].
  exact (indicator_found_by_its_name (PDict example_document) example_snapshot
           1 (CNNFearAndGreedIndex.market_volatility example_snapshot)
           "MARKET_VOLATILITY-(VIX)" B eq_refl eq_refl).
Defined.

Lemma negative_limit_drops_oldest_witness :
  CNNFearAndGreedIndex.get_historical_data example_snapshot = PList three_points /\
  (0 < 1)%Z /\
  history_window example_snapshot (PInt (-1)) = OK (PList (skipn 1 three_points)).
Proof.
  split; [reflexivity|]. split; [lia|].
  exact (proj1 (negative_limit_drops_oldest example_snapshot three_points 1
                  eq_refl eq_refl)).
Defined.

Lemma windows_nest_witness :
  CNNFearAndGreedIndex.get_historical_data example_snapshot = PList three_points /\
  (0 < 1 <= 2)%Z /\
  exists smaller larger older : list pyval,
    history_window example_snapshot (PInt 1) = OK (PList smaller) /\
    history_window example_snapshot (PInt 2) = OK (PList larger) /\
    larger = (older ++ smaller)%list.
Proof.
  split; [reflexivity|]. split; [lia|].
  destruct (windows_nest example_snapshot three_points 1 2 eq_refl)
    as (smaller & larger & older & H1 & H2 & H3 & _); [lia|].
  exists smaller, larger, older. repeat split; assumption.
Defined.

Lemma rest_history_rows_witness :
  CNNFearAndGreedIndex.get_historical_data
    (snapshot_with_series (PList five_points)) = PList five_points /\
  (0 < 3)%Z /\
  exists rows,
    api_server.get_historical (snapshot_with_series (PList five_points)) 3
    = OK rows /\
    List.length rows = 3%nat.
Proof.
  split; [reflexivity|]. split; [lia|].
  eexists. split; [vm_compute; reflexivity|].
  refine (proj2 (rest_history_rows (snapshot_with_series (PList five_points))
                   five_points 3 _ eq_refl eq_refl) _).
  vm_compute. reflexivity.
Defined.

Lemma cli_history_is_rest_history_reversed_witness :
  exists rows,
    fgi_cli.history example_snapshot 2 = OK rows /\
    api_server.get_historical example_snapshot 2
    = OK (rev (map (fun row =>
                      {| api_server.date := fgi_cli.date row;
                         api_server.row_score := fgi_cli.row_score row;
                         api_server.row_rating := PStr (fgi_cli.row_rating row) |})
                   rows)).
Proof.
  eexists. split; [vm_compute; reflexivity|].
  apply (cli_history_is_rest_history_reversed example_snapshot 2).
  vm_compute. reflexivity.
Defined.

Lemma tool_history_days_witness :
  dict_find [] "days" = None /\
  fgi_mcp_server.get_fear_greed_history example_snapshot []
  = fgi_mcp_server.get_fear_greed_history example_snapshot [("days", PInt 10)] /\
  fgi_mcp_server.get_fear_greed_history example_snapshot [("days", PFloat 5)]
  = Raise TypeError.
Proof.
  destruct (tool_history_days example_snapshot []) as [D _].
  destruct (tool_history_days example_snapshot [("days", PFloat 5)]) as [_ T].
  split; [reflexivity|]. split; [exact (D eq_refl)|].
  apply (T (PFloat 5) eq_refl); intros; discriminate.
Defined.

Lemma report_is_padded_to_80_witness :
  exists text rating score stamp,
    text_reports.get_report
      (CNNFearAndGreedIndex.market_volatility example_snapshot) = OK text /\
    let head := "Market Volatility (VIX)" ++ ": " ++ py_title rating
                ++ " (" ++ score ++ ")" in
    text = (head ++ string_repeat (80 - String.length head) " ")
           ++ "[Updated " ++ stamp ++ "]".
Proof.
  destruct (text_reports.get_report
              (CNNFearAndGreedIndex.market_volatility example_snapshot))
    as [text|e] eqn:E; [|vm_compute in E; discriminate E].
  destruct (proj1 (report_is_padded_to_80
                     (CNNFearAndGreedIndex.market_volatility example_snapshot))
                  text E)
    as (rating & score & stamp & _ & _ & H & _).
  exists text, rating, score, stamp. split; [reflexivity|exact H].
Defined.

Lemma call_tool_dispatch_witness :
  In "get_fear_greed_score"
     (map fgi_mcp_tools.name fgi_mcp_tools.list_tools) /\
  ~ In "get_fear_greed" (map fgi_mcp_tools.name fgi_mcp_tools.list_tools) /\
  sent (snd (fgi_mcp_tools.call_tool "get_fear_greed_score" []
               (network_answering TimedOut)))
  = [the_request] /\
  fgi_mcp_tools.call_tool "get_fear_greed" [] (network_answering TimedOut)
  = (OK "Unknown tool: get_fear_greed", network_answering TimedOut).
Proof.
  assert (I : In "get_fear_greed_score"
                 (map fgi_mcp_tools.name fgi_mcp_tools.list_tools))
    by (simpl; tauto).
  assert (N : ~ In "get_fear_greed"
                   (map fgi_mcp_tools.name fgi_mcp_tools.list_tools))
    by (simpl; intuition discriminate).
  split; [exact I|]. split; [exact N|]. split.
  - exact (proj1 (proj1 (call_tool_dispatch "get_fear_greed_score" []
                           (network_answering TimedOut)) I)).
  - exact (proj2 (call_tool_dispatch "get_fear_greed" []
                    (network_answering TimedOut)) N).
Defined.

Lemma other_timestamps_reach_the_parser_unchanged_witness :
  "2024-12-02T18:59:55-05:00" <> EmptyString /\
  ~ is_substring "+00:00" "2024-12-02T18:59:55-05:00" /\
  rest_ok document_other_offset = true /\
  exists fgi,
    CNNFearAndGreedIndex.build (PDict document_other_offset) = OK fgi /\
    CNNFearAndGreedIndex.timestamp fgi
    = Some (OfText "2024-12-02T18:59:55-05:00").
Proof.
  assert (N : ~ is_substring "+00:00" "2024-12-02T18:59:55-05:00").
  { intros H. apply py_in_spec in H. vm_compute in H. discriminate H. }
  split; [discriminate|]. split; [exact N|]. split; [vm_compute; reflexivity|].
  refine (other_timestamps_reach_the_parser_unchanged document_other_offset
            [("score", PFloat (50 # 1));
             ("timestamp", PStr "2024-12-02T18:59:55-05:00")]
            "2024-12-02T18:59:55-05:00" eq_refl eq_refl _ N _).
  - discriminate.
  - vm_compute. reflexivity.
Defined.

Lemma timestamp_encodings_are_not_interchangeable_witness :
  truthy (PInt 1733184000000) = true /\
  num_value (PStr "2024-12-02T23:59:55+00:00") = None /\
  CNNFearAndGreedIndex.build (PDict document_epoch_composite)
  = Raise AttributeError /\
  FearAndGreedIndicator.__init__ "Junk Bond Demand"
    (PDict [("timestamp", PStr "2024-12-02T23:59:55+00:00")])
  = Raise TypeError.
Proof.
  destruct timestamp_encodings_are_not_interchangeable as [C I].
  split; [reflexivity|]. split; [reflexivity|]. split.
  - refine (C document_epoch_composite
              [("score", PFloat (50 # 1)); ("timestamp", PInt 1733184000000)]
              (PInt 1733184000000) eq_refl eq_refl eq_refl _).
    intros s H. discriminate H.
  - exact (I "Junk Bond Demand"
             [("timestamp", PStr "2024-12-02T23:59:55+00:00")]
             (PStr "2024-12-02T23:59:55+00:00") eq_refl eq_refl eq_refl).
Defined.

End MoreExamples.

(** ** The composite timestamp under CPython's parser *)

Lemma digit_of_digit_char (k : Z) :
  (0 <= k < 10)%Z ->
  py_datetime.digit_of (py_datetime.digit_char k) = Some k.
Proof.
  intros H.
  assert (C : (k = 0 \/ k = 1 \/ k = 2 \/ k = 3 \/ k = 4 \/
               k = 5 \/ k = 6 \/ k = 7 \/ k = 8 \/ k = 9)%Z) by lia.
  repeat (destruct C as [->|C]; [reflexivity|]). now subst k.
Qed.

Lemma read_zero_padded (w : nat) (v acc : Z) (s : string) :
  py_datetime.read_digits w acc (py_datetime.zero_padded w v ++ s)
  = Some ((acc * 10 ^ Z.of_nat w + v mod 10 ^ Z.of_nat w)%Z, s).
Proof.
  revert acc. induction w as [|w IH]; intros acc.
  - simpl. rewrite Z.mod_1_r. do 2 f_equal. lia.
  - cbn [py_datetime.zero_padded String.append py_datetime.read_digits].
    rewrite digit_of_digit_char by (apply Z.mod_pos_bound; lia).
    cbn [py_datetime.and_then]. rewrite IH. do 2 f_equal.
    rewrite Nat2Z.inj_succ, Z.pow_succ_r by lia.
    rewrite (Z.mul_comm 10 (10 ^ Z.of_nat w)).
    rewrite (Z.rem_mul_r v (10 ^ Z.of_nat w) 10) by lia.
    ring.
Qed.

Lemma read_field (w : nat) (v : Z) (s : string) :
  (0 <= v < 10 ^ Z.of_nat w)%Z ->
  py_datetime.read_digits w 0 (py_datetime.zero_padded w v ++ s) = Some (v, s).
Proof.
  intros H. rewrite read_zero_padded, Z.mod_small by exact H.
  reflexivity.
Qed.

Lemma no_offset_in_digits (w : nat) (v : Z) (s : string) :
  py_in "+00:00" (py_datetime.zero_padded w v ++ s) = py_in "+00:00" s.
Proof.
  induction w as [|w IH]; [reflexivity|].
  cbn [py_datetime.zero_padded String.append py_in startswith].
  rewrite IH.
  assert (B : (0 <= (v / 10 ^ Z.of_nat w) mod 10 < 10)%Z)
    by (apply Z.mod_pos_bound; lia).
  set (k := ((v / 10 ^ Z.of_nat w) mod 10)%Z) in *.
  assert (C : (k = 0 \/ k = 1 \/ k = 2 \/ k = 3 \/ k = 4 \/
               k = 5 \/ k = 6 \/ k = 7 \/ k = 8 \/ k = 9)%Z) by lia.
  repeat (destruct C as [->|C]; [reflexivity|]). now rewrite C.
Qed.

Lemma append_empty (s : string) : s ++ EmptyString = s.
Proof. induction s as [|c s IH]; [reflexivity|]. simpl. now rewrite IH. Qed.

Lemma no_offset_in_clock_text (d : py_datetime.t) :
  py_in "+00:00" (py_datetime.clock_text d) = false.
Proof.
  unfold py_datetime.clock_text.
  repeat (rewrite no_offset_in_digits;
          cbn [String.append py_in startswith Ascii.eqb Bool.eqb andb orb]).
  destruct (py_datetime.microsecond d =? 0)%Z; [reflexivity|].
  cbn [String.append py_in startswith Ascii.eqb Bool.eqb andb orb].
  rewrite <- (append_empty (py_datetime.zero_padded 6 _)).
  now rewrite no_offset_in_digits.
Qed.

Lemma clock_text_as_sent (d : py_datetime.t) :
  py_replace (py_datetime.clock_text d ++ "+00:00") "+00:00" "+0000"
  = py_datetime.clock_text d ++ "+0000".
Proof.
  rewrite normalized_offset.
  now rewrite (replace_absent _ _ _ (no_offset_in_clock_text d)).
Qed.

Lemma valid_ranges (d : py_datetime.t) :
  py_datetime.valid d = true ->
  (0 <= py_datetime.year d < 10 ^ 4 /\
   0 <= py_datetime.month d < 10 ^ 2 /\
   0 <= py_datetime.day d < 10 ^ 2 /\
   0 <= py_datetime.hour d < 10 ^ 2 /\
   0 <= py_datetime.minute d < 10 ^ 2 /\
   0 <= py_datetime.second d < 10 ^ 2 /\
   0 <= py_datetime.microsecond d < 10 ^ 6)%Z.
Proof.
  unfold py_datetime.valid. intros V.
  repeat (apply andb_prop in V; destruct V as [V ?]).
  assert (py_datetime.days_in_month (py_datetime.year d) (py_datetime.month d) <= 31)%Z.
  { unfold py_datetime.days_in_month.
    repeat match goal with |- context [if ?b then _ else _] => destruct b end; lia. }
  lia.
Qed.

(** The parser reads back what [isoformat] wrote, the offset in its
    basic form. *)
Lemma extended_utc_clock_text (d : py_datetime.t) :
  py_datetime.valid d = true ->
  py_datetime.utcoffset d = Some 0%Z ->
  py_datetime.extended_utc (py_datetime.clock_text d ++ "+0000") = Some d.
Proof.
  intros V U. pose proof (valid_ranges d V) as (Ry & Rm & Rd & Rh & Rn & Rs & Ru).
  unfold py_datetime.extended_utc, py_datetime.clock_text.
  repeat rewrite append_assoc.
  repeat (rewrite read_field by assumption;
          cbn [py_datetime.and_then String.append py_datetime.expect
               Ascii.eqb Bool.eqb andb]).
  assert (F : py_datetime.fraction_and_offset
                ((if (py_datetime.microsecond d =? 0)%Z then EmptyString
                  else "." ++ py_datetime.zero_padded 6 (py_datetime.microsecond d))
                 ++ "+0000")
              = Some (py_datetime.microsecond d)).
  { destruct (Z.eqb_spec (py_datetime.microsecond d) 0) as [E|E].
    - rewrite E. reflexivity.
    - unfold py_datetime.fraction_and_offset.
      cbn [String.append String.eqb Ascii.eqb Bool.eqb andb
           py_datetime.expect py_datetime.and_then].
      rewrite read_field by assumption.
      reflexivity. }
  cbn [String.append] in F. rewrite F. cbn [py_datetime.and_then]. cbv zeta.
  destruct d as [y m dd hh mm ss us off]. simpl in U. subst off.
  simpl in V |- *. now rewrite V.
Qed.

Section TimestampOutcome.
Context {RT : Runtime}.

Lemma build_with_timestamp (items fg : list (string * pyval))
  (o : option datetime) :
  dict_get items "fear_and_greed" (PDict []) = PDict fg ->
  CNNFearAndGreedIndex.load_timestamp (dict_get fg "timestamp" PNone) = OK o ->
  rest_ok items = true ->
  exists fgi,
    CNNFearAndGreedIndex.build (PDict items) = OK fgi /\
    CNNFearAndGreedIndex.timestamp fgi = o.
Proof.
  intros Hfg Hl Hrest.
  assert (W : well_formed items = true).
  { unfold well_formed. rewrite Hrest, andb_true_r, Hfg. simpl.
    unfold composite_timestamp_ok.
    unfold CNNFearAndGreedIndex.load_timestamp in Hl.
    destruct (truthy (dict_get fg "timestamp" PNone)); [|reflexivity].
    destruct (dict_get fg "timestamp" PNone); try discriminate Hl.
    simpl. destruct (fromisoformat _); [reflexivity|discriminate Hl]. }
  apply build_returns_iff in W. destruct W as [fgi H].
  exists fgi. split; [exact H|].
  destruct (build_OK _ fgi H) as (items' & fg' & hist & E & Hfg' & _ & Hl' & _).
  injection E as <-. rewrite Hfg in Hfg'. injection Hfg' as <-.
  congruence.
Qed.

Lemma load_normalized (p : string) :
  CNNFearAndGreedIndex.load_timestamp (PStr (p ++ "+00:00"))
  = (d <- fromisoformat (py_replace p "+00:00" "+0000" ++ "+0000") ;;
     OK (Some d)).
Proof.
  unfold CNNFearAndGreedIndex.load_timestamp.
  assert (T : truthy (PStr (p ++ "+00:00")) = true)
    by (simpl; now destruct p).
  now rewrite T, normalized_offset.
Qed.

End TimestampOutcome.

(** C9.  The composite timestamp is [None] when the ["timestamp"] field
    is absent, and also when it is present and falsy.  A text ending in
    "+00:00" reaches [datetime.fromisoformat] with that offset, and any
    other "+00:00" in it, rewritten to "+0000"; what the parser returns
    becomes the timestamp, what it raises the builder raises.  Under
    the parser of CPython 3.11 and later the rewritten text is
    accepted: for every valid datetime [d] in UTC, the builder turns
    the text that [isoformat] writes for [d], offset "+00:00", into a
    snapshot whose timestamp is [d]. *)
Theorem composite_timestamp_normalized :
  (forall (RT : Runtime) (items fg : list (string * pyval)),
      dict_get items "fear_and_greed" (PDict []) = PDict fg ->
      (dict_find fg "timestamp" = None \/
       (exists v, dict_find fg "timestamp" = Some v /\ truthy v = false) ->
       rest_ok items = true ->
       exists fgi,
         CNNFearAndGreedIndex.build (PDict items) = OK fgi /\
         CNNFearAndGreedIndex.timestamp fgi = None) /\
      (forall p : string,
          dict_find fg "timestamp" = Some (PStr (p ++ "+00:00")) ->
          match fromisoformat (py_replace p "+00:00" "+0000" ++ "+0000") with
          | OK d =>
              rest_ok items = true ->
              exists fgi,
                CNNFearAndGreedIndex.build (PDict items) = OK fgi /\
                CNNFearAndGreedIndex.timestamp fgi = Some d
          | Raise e => CNNFearAndGreedIndex.build (PDict items) = Raise e
          end)) /\
  (forall (other_texts : string -> result py_datetime.t)
          (convert : Q -> result py_datetime.t)
          (items fg : list (string * pyval)) (d : py_datetime.t),
      let RT := py_datetime.cpython_3_11 other_texts convert in
      py_datetime.valid d = true ->
      py_datetime.utcoffset d = Some 0%Z ->
      dict_get items "fear_and_greed" (PDict []) = PDict fg ->
      dict_find fg "timestamp"
      = Some (PStr (py_datetime.clock_text d ++ "+00:00")) ->
      rest_ok items = true ->
      fromisoformat
        (py_replace (py_datetime.clock_text d ++ "+00:00") "+00:00" "+0000")
      = OK d /\
      exists fgi,
        CNNFearAndGreedIndex.build (PDict items) = OK fgi /\
        CNNFearAndGreedIndex.timestamp fgi = Some d).
Proof.
  split.
  - intros RT items fg Hfg. split.
    + intros Hts Hrest. apply (build_with_timestamp items fg None Hfg); [|exact Hrest].
      rewrite dict_get_find.
      destruct Hts as [->|(v & -> & T)]; [reflexivity|].
      unfold CNNFearAndGreedIndex.load_timestamp. now rewrite T.
    + intros p Hts.
      pose proof (load_normalized p) as L.
      destruct (fromisoformat (py_replace p "+00:00" "+0000" ++ "+0000"))
        as [d|e].
      * intros Hrest. apply (build_with_timestamp items fg (Some d) Hfg); [|exact Hrest].
        now rewrite dict_get_find, Hts.
      * now apply (build_at_timestamp items fg _ e Hfg Hts).
  - intros other_texts convert items fg d RT V U Hfg Hts Hrest.
    assert (P : fromisoformat
                  (py_replace (py_datetime.clock_text d ++ "+00:00")
                              "+00:00" "+0000")
                = OK d).
    { rewrite clock_text_as_sent. subst RT. cbn [fromisoformat py_datetime.cpython_3_11].
      now rewrite (extended_utc_clock_text d V U). }
    split; [exact P|].
    apply (@build_with_timestamp RT items fg (Some d : option (@datetime RT)) Hfg);
      [|exact Hrest].
    rewrite dict_get_find, Hts.
    unfold CNNFearAndGreedIndex.load_timestamp.
    assert (T : truthy (PStr (py_datetime.clock_text d ++ "+00:00")) = true)
      by (simpl; now destruct (py_datetime.clock_text d)).
    now rewrite T, P.
Qed.

Lemma composite_timestamp_normalized_witness :
  py_datetime.valid (py_datetime.mk 2024 12 2 23 59 55 0 (Some 0%Z)) = true /\
  py_datetime.clock_text (py_datetime.mk 2024 12 2 23 59 55 0 (Some 0%Z))
    ++ "+00:00"
  = "2024-12-02T23:59:55+00:00" /\
  @rest_ok only_utc_texts document_utc_composite = true /\
  @fromisoformat only_utc_texts "2024-12-02T23:59:55+0000"
  = OK (py_datetime.mk 2024 12 2 23 59 55 0 (Some 0%Z)) /\
  (exists fgi,
      @CNNFearAndGreedIndex.build only_utc_texts (PDict document_utc_composite)
      = OK fgi /\
      @CNNFearAndGreedIndex.timestamp only_utc_texts fgi
      = Some (py_datetime.mk 2024 12 2 23 59 55 0 (Some 0%Z))) /\
  (exists fgi,
      @CNNFearAndGreedIndex.build example_runtime
        (PDict [("fear_and_greed", PDict [("score", PFloat (50 # 1))])])
      = OK fgi /\
      @CNNFearAndGreedIndex.timestamp example_runtime fgi = None).
Proof.
  assert (V : py_datetime.valid (py_datetime.mk 2024 12 2 23 59 55 0 (Some 0%Z))
              = true) by reflexivity.
  assert (R : @rest_ok only_utc_texts document_utc_composite = true)
    by (vm_compute; reflexivity).
  split; [exact V|]. split; [reflexivity|]. split; [exact R|].
  pose proof (proj2 composite_timestamp_normalized
                (fun _ => Raise ValueError) (fun _ => Raise OverflowError)
                document_utc_composite _
                (py_datetime.mk 2024 12 2 23 59 55 0 (Some 0%Z))
                V eq_refl eq_refl eq_refl R) as C.
  split; [exact (proj1 C)|]. split; [exact (proj2 C)|].
  refine (proj1 (proj1 composite_timestamp_normalized example_runtime
                   [("fear_and_greed", PDict [("score", PFloat (50 # 1))])]
                   _ eq_refl) (or_introl eq_refl) _).
  vm_compute; reflexivity.
Defined.
